(** * Syracuse 311 ArcGIS client: a shallow embedding of
      [src/data_ingestion/arcgis_api.py] and the properties of its
      request builder, pagination driver and persistence step.

    Python integers are unbounded and are modelled by [Z]; strings are
    byte strings (UTF-8), whose order is the code-point order Python uses.
    The remote service, the clock and the disk are an environment [env]
    every theorem quantifies over; the mutable part of a run (the client
    object, the requests issued, standard output, the files written, the
    pauses taken) is the [state] threaded through the monad [M]. *)

From Stdlib Require Import ZArith QArith String Ascii List Bool Lia.
From stdpp Require Import base option list gmap strings pretty.

Local Open Scope string_scope.
Local Open Scope list_scope.
Local Open Scope Z_scope.

(** ** Python values *)

(** A scalar as [json] decoding and pandas hand it to the program. A float
    is kept as the text [str()] gives for it: the program never computes
    with one. [VNone] is the decoded JSON [null], [VNaN] the missing cell
    of a frame. *)
Inductive value :=
| VStr (s : string)
| VInt (z : Z)
| VFloat (repr : string)
| VNone
| VNaN.

(** [str(v)] *)
Definition str (v : value) : string :=
  match v with
  | VStr s => s
  | VInt z => pretty z
  | VFloat repr => repr
  | VNone => "None"
  | VNaN => "nan"
  end.

#[global] Instance value_eq_dec : EqDecision value.
Proof. solve_decision. Defined.

(** A raw row: the [attributes] dict of a feature, in insertion order. *)
Abbreviation row := (list (string * value)).

(** The exceptions that occur: the builtin [Exception] the module raises
    itself, the two classes of [requests.exceptions] it tells apart, and
    the [KeyError], [TypeError] and [OSError] raised by the operations it
    calls. All are subclasses of [Exception]. *)
Inductive exn :=
| Exception (msg : string)
| Timeout (msg : string)
| RequestException (msg : string)
| KeyError (key : string)
| TypeError (msg : string)
| OSError (msg : string).

(** [str(e)] *)
Definition str_exn (e : exn) : string :=
  match e with
  | Exception m | Timeout m | RequestException m | TypeError m | OSError m => m
  | KeyError k => "'" +:+ k +:+ "'"
  end.

Inductive res (A : Type) :=
| Ok (a : A)
| Raise (e : exn).
Arguments Ok {A} a.
Arguments Raise {A} e.

(** ** pandas *)

(** A frame: its column labels, its rows in index order and its [attrs].
    A row is kept as the record it came from, so a cell is a scalar and a
    key a row lacks is a missing cell. pandas moreover holds every column
    under one dtype: a column of integers with a missing cell is held as
    [float64], so that [1] is held as [1.0]. The constructors below do not
    model that unification: a frame they build keeps the scalars as
    received, and what is stated of such a frame is which records it
    holds, in which order and under which labels. *)
Record DataFrame := mkDataFrame {
  columns : list string;
  rows : list row;
  attrs : gmap string value;
}.

(** [pd.DataFrame()] *)
Definition DataFrame_empty : DataFrame :=
  {| columns := []; rows := []; attrs := ∅ |}.

(** Column labels in order of first appearance. *)
Definition add_labels (cols ks : list string) : list string :=
  fold_left (λ acc k, if bool_decide (k ∈ acc) then acc else acc ++ [k]) ks cols.

(** [pd.DataFrame(records)] for a non-empty list of dicts: one row per
    record, the columns are the keys met. A record without keys still gives
    a row: [pd.DataFrame([{}, {}])] has two rows and no column. *)
Definition DataFrame_of_records (records : list row) : DataFrame :=
  {| columns := fold_left (λ acc r, add_labels acc r.*1) records [];
     rows := records;
     attrs := ∅ |}.

(** [len(df)] *)
Definition len (df : DataFrame) : Z := Z.of_nat (length (rows df)).

(** [df.empty]: true when either axis has length 0, so also for a frame
    that has rows but no column. *)
Definition empty (df : DataFrame) : bool :=
  match rows df, columns df with
  | [], _ | _, [] => true
  | _, _ => false
  end.

(** [pd.concat(dfs, ignore_index=True)] on a non-empty list of frames. *)
Definition concat (dfs : list DataFrame) : DataFrame :=
  {| columns := fold_left (λ acc df, add_labels acc (columns df)) dfs [];
     rows := mjoin (rows <$> dfs);
     attrs := ∅ |}.

(** [df[col]]: the cells of a column, [NaN] where a row lacks the key. *)
Fixpoint cell (col : string) (r : row) : value :=
  match r with
  | [] => VNaN
  | (k, v) :: r' => if bool_decide (k = col) then v else cell col r'
  end.

Definition column (df : DataFrame) (col : string) : list value :=
  cell col <$> rows df.

(** ** Strings *)

Definition nl : string := String "010"%char "".

Fixpoint prefix_of (p s : string) : bool :=
  match p, s with
  | EmptyString, _ => true
  | String a p', String b s' => bool_decide (a = b) && prefix_of p' s'
  | String _ _, EmptyString => false
  end.

(** [s.replace(old, new)] for a non-empty [old]: left to right, occurrences
    that do not overlap. [skip] counts the characters of a match still to
    be dropped. *)
Fixpoint replace_from (old new : string) (skip : nat) (s : string) : string :=
  match s with
  | EmptyString => EmptyString
  | String c s' =>
      match skip with
      | S k => replace_from old new k s'
      | O =>
          if prefix_of old s
          then new +:+ replace_from old new (String.length old - 1)%nat s'
          else String c (replace_from old new O s')
      end
  end.

(** With an empty [old], Python puts [new] before every character and at
    the end. *)
Fixpoint intersperse_str (new s : string) : string :=
  match s with
  | EmptyString => new
  | String c s' => new +:+ String c (intersperse_str new s')
  end.

Definition replace (s old new : string) : string :=
  match old with
  | EmptyString => intersperse_str new s
  | _ => replace_from old new O s
  end.

(** [sep.join(l)] *)
Fixpoint join (sep : string) (l : list string) : string :=
  match l with
  | [] => ""
  | [x] => x
  | x :: l' => x +:+ sep +:+ join sep l'
  end.

(** [f"{n:04d}"] for a counter. *)
Definition pad4 (n : nat) : string :=
  let s := pretty n in
  String.concat "" (replicate (4 - String.length s)%nat "0") +:+ s.

(** ** The environment and the state of a run *)

(** A query parameter is a string or an integer. *)
Inductive pval :=
| PStr (s : string)
| PInt (z : Z).

#[global] Instance pval_eq_dec : EqDecision pval.
Proof. solve_decision. Defined.

(** One [session.get(url, params=..., timeout=...)]. *)
Record request := mkRequest {
  url : string;
  params : gmap string pval;
  req_timeout : Z;
}.

(** A feature of the response; [attributes] is [None] when the key is
    absent. *)
Record feature := mkFeature {
  attributes : option row;
}.

(** The decoded body of a response, seen through the three keys the
    client reads; [None] is an absent key. The value under [error] is kept
    as the text an f-string gives for it, the only use made of it. A field
    descriptor of the metadata resource is a dict of scalars. *)
Record body := mkBody {
  error : option string;
  features : option (list feature);
  fields : option (list row);
}.

(** [datetime.now()], through the two renderings the module takes:
    [.isoformat()] and [.strftime('%Y%m%d_%H%M%S')]. *)
Record datetime := mkDatetime {
  isoformat : string;
  strftime : string;
}.

(** What a run does not control. [http k r] is the outcome of the [k]-th
    request of the run when it is [r]: [session.get], then
    [raise_for_status()], then [json()]. [now k] is the clock at its [k]-th
    reading. [makedirs_ok] and [open_ok] say whether the disk accepts a
    directory or a file to write. [reduce_other] stands for what depends
    on the pandas at hand in [Series.min()] ([false]) and [Series.max()]
    ([true]): [series_reduce] below consults it where the cells of a
    column do not settle the outcome. *)
Record env := mkEnv {
  http : nat → request → res body;
  now : nat → datetime;
  makedirs_ok : string → bool;
  open_ok : string → bool;
  reduce_other : bool → list value → res value;
}.

(** The extraction metadata written next to a saved table. *)
Record date_range := mkDateRange {
  dr_min : option string;
  dr_max : option string;
}.

Record metadata := mkMetadata {
  extraction_timestamp : string;
  record_count : Z;
  meta_columns : list string;
  meta_date_range : date_range;
}.

(** A file on disk: the table [to_csv(index=False)] writes (header and
    lines of cells) or the metadata [json.dump] writes. *)
Inductive file :=
| Csv (header : list string) (lines : list (list value))
| Json (m : metadata).

(** The client object. *)
Record SyracuseDataAPI := mkSelf {
  timeout : Z;
  _field_names : option (list value);
}.

(** What a run changes. [dirs] lists the directories [os.makedirs] was
    called for, in order, where the call succeeded: each such call leaves
    that directory in place together with the parents it lacked. *)
Record state := mkState {
  self : SyracuseDataAPI;
  requests : list request;
  stdout : list string;
  disk : gmap string file;
  dirs : list string;
  sleeps : nat;
  ticks : nat;
}.

(** [SyracuseDataAPI(timeout)] in a fresh process. *)
Definition init (t : Z) : state :=
  {| self := {| timeout := t; _field_names := None |};
     requests := []; stdout := []; disk := ∅; dirs := []; sleeps := 0; ticks := 0 |}.

(** ** The monad: environment, state and exceptions *)

Definition M (A : Type) : Type := env → state → res A * state.

Definition ret {A} (a : A) : M A := λ _ s, (Ok a, s).

Definition bind {A B} (m : M A) (k : A → M B) : M B :=
  λ E s, match m E s with
         | (Ok a, s') => k a E s'
         | (Raise e, s') => (Raise e, s')
         end.

Definition raise {A} (e : exn) : M A := λ _ s, (Raise e, s).

(** [try: m except ...: h e]; a handler re-raises what it does not catch. *)
Definition try_except {A} (m : M A) (h : exn → M A) : M A :=
  λ E s, match m E s with
         | (Ok a, s') => (Ok a, s')
         | (Raise e, s') => h e E s'
         end.

#[global] Instance M_ret : MRet M := @ret.
#[global] Instance M_bind : MBind M := λ A B k m, bind m k.

Definition get_self : M SyracuseDataAPI := λ _ s, (Ok (self s), s).

Definition set_field_names (names : list value) : M unit :=
  λ _ s, (Ok tt,
          {| self := {| timeout := timeout (self s); _field_names := Some names |};
             requests := requests s; stdout := stdout s; disk := disk s;
             dirs := dirs s; sleeps := sleeps s; ticks := ticks s |}).

Definition print (line : string) : M unit :=
  λ _ s, (Ok tt,
          {| self := self s; requests := requests s; stdout := stdout s ++ [line];
             disk := disk s; dirs := dirs s; sleeps := sleeps s; ticks := ticks s |}).

(** [self.session.get(u, params=p, timeout=t)] followed by
    [raise_for_status()] and [json()]. *)
Definition session_get (u : string) (p : gmap string pval) (t : Z) : M body :=
  λ E s,
    let r := {| url := u; params := p; req_timeout := t |} in
    (http E (length (requests s)) r,
     {| self := self s; requests := requests s ++ [r]; stdout := stdout s;
        disk := disk s; dirs := dirs s; sleeps := sleeps s; ticks := ticks s |}).

(** [time.sleep(0.5)] *)
Definition sleep_half : M unit :=
  λ _ s, (Ok tt,
          {| self := self s; requests := requests s; stdout := stdout s;
             disk := disk s; dirs := dirs s; sleeps := S (sleeps s); ticks := ticks s |}).

(** [datetime.now()] *)
Definition datetime_now : M datetime :=
  λ E s, (Ok (now E (ticks s)),
          {| self := self s; requests := requests s; stdout := stdout s;
             disk := disk s; dirs := dirs s; sleeps := sleeps s; ticks := S (ticks s) |}).

(** [os.makedirs(d, exist_ok=True)]; a call that succeeds is recorded in
    [dirs]. *)
Definition makedirs (d : string) : M unit :=
  λ E s,
    if makedirs_ok E d
    then (Ok tt,
          {| self := self s; requests := requests s; stdout := stdout s;
             disk := disk s; dirs := dirs s ++ [d]; sleeps := sleeps s; ticks := ticks s |})
    else (Raise (OSError d), s).

(** Opening [path] for writing and writing [f] to it. *)
Definition write_file (path : string) (f : file) : M unit :=
  λ E s,
    if open_ok E path
    then (Ok tt,
          {| self := self s; requests := requests s; stdout := stdout s;
             disk := <[path := f]> (disk s); dirs := dirs s; sleeps := sleeps s;
             ticks := ticks s |})
    else (Raise (OSError path), s).

(** [for x in l: f x] *)
Fixpoint for_each {A} (l : list A) (f : A → M unit) : M unit :=
  match l with
  | [] => ret tt
  | x :: l' => f x;; for_each l' f
  end.

(** [[f x for x in l]] *)
Fixpoint comprehension {A B} (l : list A) (f : A → M B) : M (list B) :=
  match l with
  | [] => ret []
  | x :: l' => y ← f x; ys ← comprehension l' f; ret (y :: ys)
  end.

(** [d[k]] on a dict *)
Fixpoint getitem (d : row) (k : string) : M value :=
  match d with
  | [] => raise (KeyError k)
  | (k', v) :: d' => if bool_decide (k' = k) then ret v else getitem d' k
  end.

(** ** The client *)

Definition BASE_URL : string :=
  "https://services6.arcgis.com/bdPqSfflsdgFRVVM/arcgis/rest/services/SYRCityline_Requests_2021_Present/FeatureServer/0/query".

Definition _make_request (p : gmap string pval) : M body :=
  try_except
    (me ← get_self;
     session_get BASE_URL p (timeout me))
    (λ e,
       match e with
       | Timeout _ =>
           me ← get_self;
           raise (Exception ("Request timed out after " +:+ pretty (timeout me) +:+ " seconds"))
       | RequestException _ =>
           raise (Exception ("API request failed: " +:+ str_exn e))
       | _ => raise e
       end).

(** The [try] block of [get_field_info]. *)
Definition get_field_info_try : M (list row) :=
  let metadata_url := replace BASE_URL "/query" "" in
  me ← get_self;
  data ← session_get metadata_url {[ "f" := PStr "json" ]} (timeout me);
  let fields := default [] (fields data) in
  print (nl +:+ "=== Available fields: " +:+ pretty (length fields) +:+ " ===");;
  for_each fields (λ field,
    n ← getitem field "name";
    t ← getitem field "type";
    print ("  - " +:+ str n +:+ " (" +:+ str t +:+ ")"));;
  names ← comprehension fields (λ f, getitem f "name");
  set_field_names names;;
  ret fields.

(** [get_field_info]: the block above under [except Exception as e]. *)
Definition get_field_info : M (list row) :=
  try_except get_field_info_try
    (λ e,
       print ("Could not fetch field info: " +:+ str_exn e);;
       ret []).

(** [str(b).lower()] *)
Definition lower_str_bool (b : bool) : string := if b then "true" else "false".

(** The query parameters of one page. *)
Definition query_params (limit offset : Z) (where_clause : string)
    (fields : option (list string)) (return_geometry : bool)
    (order_by : option string) : gmap string pval :=
  let params : gmap string pval :=
    list_to_map
      [ ("where", PStr where_clause);
        ("outFields", PStr match fields with
                           | Some (f :: fs) => join "," (f :: fs)
                           | _ => "*"
                           end);
        ("returnGeometry", PStr (lower_str_bool return_geometry));
        ("f", PStr "json");
        ("resultOffset", PInt offset);
        ("resultRecordCount", PInt (Z.min limit 2000)) ] in
  match order_by with
  | Some (String c o) => <[ "orderByFields" := PStr (String c o) ]> params
  | _ => params
  end.

Definition fetch_records (limit offset : Z) (where_clause : string)
    (fields : option (list string)) (return_geometry : bool)
    (order_by : option string) : M DataFrame :=
  let params := query_params limit offset where_clause fields return_geometry order_by in
  print ("Fetching records " +:+ pretty offset +:+ " to " +:+ pretty (offset + limit) +:+ "...");;
  data ← _make_request params;
  match error data with
  | Some error_msg =>
      print (nl +:+ "API Error: " +:+ error_msg);;
      raise (Exception ("API Error: " +:+ error_msg))
  | None =>
      match default [] (features data) with
      | [] =>
          print "No records found.";;
          ret DataFrame_empty
      | features =>
          let records := (λ feature, default [] (attributes feature)) <$> features in
          let df := DataFrame_of_records records in
          print ("✓ Retrieved " +:+ pretty (len df) +:+ " raw records");;
          ret df
      end
  end.

(** [s.endswith("/")] *)
Fixpoint ends_with_slash (s : string) : bool :=
  match s with
  | EmptyString => false
  | String c EmptyString => bool_decide (c = "/"%char)
  | String _ s' => ends_with_slash s'
  end.

(** [os.path.join(a, b)] (POSIX) *)
Definition path_join (a b : string) : string :=
  if prefix_of "/" b then b
  else if bool_decide (a = "") || ends_with_slash a then a +:+ b
  else a +:+ "/" +:+ b.

(** [df.to_csv(path, index=False)] *)
Definition to_csv (df : DataFrame) (path : string) : M unit :=
  write_file path (Csv (columns df) ((λ r, (λ c, cell c r) <$> columns df) <$> rows df)).

(** [max_records and offset >= max_records] *)
Definition cap_reached (max_records : option Z) (offset : Z) : bool :=
  match max_records with
  | Some m => negb (m =? 0) && (m <=? offset)
  | None => false
  end.

(** The [while True] loop of [fetch_all_records]. [fuel] bounds the number
    of iterations; [None] is returned when it runs out, [Some all_data]
    when the loop is left by a [break]. *)
Fixpoint fetch_all_loop (fuel : nat) (batch_size : Z) (max_records : option Z)
    (where_clause : string) (save_raw : bool) (output_dir : string)
    (all_data : list DataFrame) (offset : Z) (batch_num : nat)
    : M (option (list DataFrame)) :=
  match fuel with
  | O => ret None
  | S fuel' =>
      df_batch ← fetch_records batch_size offset where_clause None false None;
      if empty df_batch then ret (Some all_data)
      else
        let all_data := all_data ++ [df_batch] in
        (if save_raw
         then
           let batch_file :=
             path_join output_dir ("raw_batch_" +:+ pad4 batch_num +:+ ".csv") in
           to_csv df_batch batch_file;;
           print ("  Saved raw batch to " +:+ batch_file)
         else ret tt);;
        let offset := offset + len df_batch in
        let batch_num := S batch_num in
        if cap_reached max_records offset
        then
          print ("Reached max_records limit (" +:+ pretty (default 0 max_records) +:+ ")");;
          ret (Some all_data)
        else if len df_batch <? batch_size then ret (Some all_data)
        else
          sleep_half;;
          fetch_all_loop fuel' batch_size max_records where_clause save_raw output_dir
            all_data offset batch_num
  end.

(** [df.attrs[k] = v] *)
Definition set_attr (k : string) (v : value) (df : DataFrame) : DataFrame :=
  {| columns := columns df; rows := rows df; attrs := <[k := v]> (attrs df) |}.

Definition fetch_all_records (fuel : nat) (batch_size : Z) (max_records : option Z)
    (where_clause : string) (save_raw : bool) (output_dir : string)
    : M (option DataFrame) :=
  (if save_raw
   then
     makedirs output_dir;;
     print ("Raw data will be saved to: " +:+ output_dir)
   else ret tt);;
  print ("Starting batch download (batch_size=" +:+ pretty batch_size +:+ ")...");;
  r ← fetch_all_loop fuel batch_size max_records where_clause save_raw output_dir [] 0 0%nat;
  match r with
  | None => ret None
  | Some [] => ret (Some DataFrame_empty)
  | Some all_data =>
      let df_combined := concat all_data in
      print (nl +:+ "✓ Total raw records fetched: " +:+ pretty (len df_combined));;
      t ← datetime_now;
      let df_combined := set_attr "extraction_timestamp" (VStr (isoformat t)) df_combined in
      let df_combined := set_attr "total_records" (VInt (len df_combined)) df_combined in
      ret (Some df_combined)
  end.

(** *** Saving *)

Definition all_str (l : list value) : option (list string) :=
  mapM (λ v, match v with VStr s => Some s | _ => None end) l.

Definition str_min (a b : string) : string := if String.leb a b then a else b.
Definition str_max (a b : string) : string := if String.leb a b then b else a.

(** A missing cell: [None] or [NaN]. Both are skipped by a reduction. *)
Definition missing (v : value) : bool :=
  match v with
  | VNone | VNaN => true
  | _ => false
  end.

Definition present (cells : list value) : list value :=
  List.filter (λ v, negb (missing v)) cells.

(** The number a cell holds: a rational, or one of the two infinities a
    float can be. *)
Inductive number :=
| NegInf
| Fin (q : Q)
| PosInf.

Definition number_le (a b : number) : bool :=
  match a, b with
  | NegInf, _ | _, PosInf => true
  | Fin x, Fin y => Qle_bool x y
  | _, _ => false
  end.

(** The value of a decimal digit. *)
Definition digit_of (c : ascii) : option Z :=
  let n := Z.of_nat (nat_of_ascii c) in
  if (48 <=? n) && (n <=? 57) then Some (n - 48) else None.

(** The leading digits of [s]: the number read so far, how many digits
    were read, and what follows them. *)
Fixpoint read_digits (s : string) (acc : Z) (n : nat) : Z * nat * string :=
  match s with
  | String c s' =>
      match digit_of c with
      | Some d => read_digits s' (10 * acc + d) (S n)
      | None => (acc, n, s)
      end
  | EmptyString => (acc, n, s)
  end.

(** The exponent that ends the text of a float, if it has one. *)
Definition read_exponent (s : string) : option Z :=
  match s with
  | EmptyString => Some 0
  | String "e" s' =>
      let '(neg, s'') := match s' with
                         | String "-" t => (true, t)
                         | String "+" t => (false, t)
                         | _ => (false, s')
                         end in
      match read_digits s'' 0 0 with
      | (e, S _, EmptyString) => Some (if neg : bool then - e else e)
      | _ => None
      end
  | _ => None
  end.

(** The number a float stands for, read from its text: [inf], [-inf], or
    an optional sign, digits, an optional fraction and an optional
    exponent, as in [1.0], [-0.25] or [1.5e-05]. Distinct floats have
    distinct texts and the texts are ordered as the floats are. *)
Definition parse_float (repr : string) : option number :=
  if bool_decide (repr = "inf") then Some PosInf
  else if bool_decide (repr = "-inf") then Some NegInf
  else
    let '(neg, s) := match repr with
                     | String "-" t => (true, t)
                     | _ => (false, repr)
                     end in
    match read_digits s 0 0 with
    | (i, S _, rest) =>
        let '(m, k, rest') := match rest with
                              | String "." t => read_digits t i 0
                              | _ => (i, 0%nat, rest)
                              end in
        match read_exponent rest' with
        | Some e =>
            Some (Fin (Qmult (inject_Z (if neg : bool then - m else m))
                             (Qpower (inject_Z 10) (e - Z.of_nat k))))
        | None => None
        end
    | _ => None
    end.

(** The number a cell holds, if it holds one. *)
Definition num (v : value) : option number :=
  match v with
  | VInt z => Some (Fin (inject_Z z))
  | VFloat repr => parse_float repr
  | _ => None
  end.

(** An integer a [float64] holds exactly. *)
Definition small_int (v : value) : bool :=
  match v with
  | VInt z => Z.abs z <=? 2 ^ 53
  | _ => true
  end.

Definition is_int (v : value) : bool :=
  match v with
  | VInt _ => true
  | _ => false
  end.

(** A column of numbers whose order is settled by what its cells show:
    every cell that is not missing holds a number, and either the column
    holds integers only, or its integers are within 2^53, which a
    [float64] holds exactly. *)
Definition numbers (cells : list value) : bool :=
  forallb (λ v, bool_decide (is_Some (num v))) (present cells)
  && (forallb is_int cells || forallb small_int (present cells)).

(** An integer as a [float64] column shows it: [5] as [5.0]. *)
Definition as_float (v : value) : value :=
  match v with
  | VInt z => VFloat (pretty z +:+ ".0")
  | _ => v
  end.

(** The result [r] of a reduction as the column holds it. A column of
    integers holds it as it is. Beside a missing cell or a float, whether
    pandas holds the integers as floats depends on how the frame was
    built, which its cells do not show: the environment tells, by
    answering with a float. *)
Definition held (held_as : res value) (cells : list value) (r : value) : value :=
  if forallb is_int cells then r
  else match r, held_as with
       | VInt _, Ok (VFloat _) => as_float r
       | _, _ => r
       end.

Definition num_le (a b : value) : bool :=
  match num a, num b with
  | Some x, Some y => number_le x y
  | _, _ => false
  end.

(** The two reductions keep the earlier of two equal cells. *)
Definition num_min (a b : value) : value := if num_le a b then a else b.
Definition num_max (a b : value) : value := if num_le b a then a else b.

Definition is_str (v : value) : bool :=
  match v with
  | VStr _ => true
  | _ => false
  end.

(** [Series.min()] ([is_max = false]) and [Series.max()] ([is_max = true])
    with the default [skipna=True], on the cells a column holds.
    - Without a cell that is not missing the result is [NaN].
    - Strings: the least or greatest of them, in the order of [str]. When
      a cell is missing it depends on the pandas at hand whether the
      reduction raises (an [object] column) or skips it (a [str] column).
    - Numbers: the first cell holding the least or greatest number, as
      the column holds it.
    - Strings and numbers together: comparing them raises [TypeError].
    - Other numbers (an integer beyond 2^53 beside a float or a missing
      cell, a float whose text is not that of a number) are left to the
      environment. *)
Definition series_reduce (is_max : bool) (cells : list value) : M value :=
  match present cells with
  | [] => ret VNaN
  | v :: vs =>
      match all_str (v :: vs) with
      | Some (s :: ss) =>
          let r := VStr (fold_left (if is_max then str_max else str_min) ss s) in
          if forallb (λ c, negb (missing c)) cells
          then ret r
          else λ E st, (match reduce_other E is_max cells with
                        | Raise e => Raise e
                        | Ok _ => Ok r
                        end, st)
      | _ =>
          if numbers cells
          then λ E st,
                 (Ok (held (reduce_other E is_max cells) cells
                        (fold_left (if is_max then num_max else num_min) vs v)), st)
          else if existsb is_str (v :: vs)
          then λ E st, (Raise match reduce_other E is_max cells with
                              | Raise e => e
                              | Ok _ => TypeError "'<=' not supported between instances of 'str' and 'int'"
                              end, st)
          else λ E st, (reduce_other E is_max cells, st)
      end
  end.

Definition save_raw_data (df : DataFrame) (filename : option string)
    (output_dir : string) : M string :=
  makedirs output_dir;;
  filename ← match filename with
             | None =>
                 t ← datetime_now;
                 ret ("syracuse_311_raw_" +:+ strftime t +:+ ".csv")
             | Some f => ret f
             end;
  let filepath := path_join output_dir filename in
  to_csv df filepath;;
  t ← datetime_now;
  lo ← (if bool_decide ("Created_at_local" ∈ columns df)
        then v ← series_reduce false (column df "Created_at_local"); ret (Some (str v))
        else ret None);
  hi ← (if bool_decide ("Created_at_local" ∈ columns df)
        then v ← series_reduce true (column df "Created_at_local"); ret (Some (str v))
        else ret None);
  let metadata :=
    {| extraction_timestamp := isoformat t;
       record_count := len df;
       meta_columns := columns df;
       meta_date_range := {| dr_min := lo; dr_max := hi |} |} in
  let metadata_file := replace filepath ".csv" "_metadata.json" in
  write_file metadata_file (Json metadata);;
  print ("✓ Saved raw data to: " +:+ filepath);;
  print ("✓ Saved metadata to: " +:+ metadata_file);;
  ret filepath.

(** ** Notions used to state the properties *)

(** The page [fetch_records] builds from a decoded body without [error]. *)
Definition page_of (data : body) : DataFrame :=
  match default [] (features data) with
  | [] => DataFrame_empty
  | fs => DataFrame_of_records ((λ f, default [] (attributes f)) <$> fs)
  end.



(** Number of rows of a list of pages. *)
Definition total (pages : list DataFrame) : Z :=
  foldr (λ p acc, len p + acc) 0 pages.

(** The request [fetch_records] sends for a page. *)
Definition page_request (s : state) (limit offset : Z) (where_clause : string)
    (fields : option (list string)) (return_geometry : bool)
    (order_by : option string) : request :=
  {| url := BASE_URL;
     params := query_params limit offset where_clause fields return_geometry order_by;
     req_timeout := timeout (self s) |}.

(** What [fetch_records] makes of the outcome of its request. *)
Definition page_outcome (t : Z) (o : res body) : res DataFrame :=
  match o with
  | Ok data =>
      match error data with
      | Some payload => Raise (Exception ("API Error: " +:+ payload))
      | None => Ok (page_of data)
      end
  | Raise (Timeout _) =>
      Raise (Exception ("Request timed out after " +:+ pretty t +:+ " seconds"))
  | Raise (RequestException m) => Raise (Exception ("API request failed: " +:+ m))
  | Raise e => Raise e
  end.

(** The three failures a caller of [fetch_records] can meet, as the module
    raises them: a timeout of the transport, any other failure of the
    transport, an error reported in the body of the response. *)
Definition timeout_failure (t : Z) : exn :=
  Exception ("Request timed out after " +:+ pretty t +:+ " seconds").

Definition transport_failure (m : string) : exn :=
  Exception ("API request failed: " +:+ m).

Definition api_failure (payload : string) : exn :=
  Exception ("API Error: " +:+ payload).

(** A computation that sends no request and leaves the client as it is. *)
Definition quiet {A} (m : M A) : Prop :=
  ∀ E s, requests (m E s).2 = requests s ∧ self (m E s).2 = self s.

(** The lines of the loop body that save a batch when asked to. *)
Definition save_batch (save_raw : bool) (output_dir : string) (batch_num : nat)
    (df_batch : DataFrame) : M unit :=
  if save_raw
  then
    let batch_file := path_join output_dir ("raw_batch_" +:+ pad4 batch_num +:+ ".csv") in
    to_csv df_batch batch_file;;
    print ("  Saved raw batch to " +:+ batch_file)
  else ret tt.

(** The lines of [fetch_all_records] before the loop. *)
Definition announce (batch_size : Z) (save_raw : bool) (output_dir : string) : M unit :=
  (if save_raw
   then
     makedirs output_dir;;
     print ("Raw data will be saved to: " +:+ output_dir)
   else ret tt);;
  print ("Starting batch download (batch_size=" +:+ pretty batch_size +:+ ")...").

(** The frame [fetch_all_records] returns for the batches [all_data],
    stamped at time [t]. *)
Definition combined (all_data : list DataFrame) (t : datetime) : DataFrame :=
  set_attr "total_records" (VInt (len (concat all_data)))
    (set_attr "extraction_timestamp" (VStr (isoformat t)) (concat all_data)).

(** ** Sample data and services *)

Definition sample_row (i : nat) : row :=
  [ ("Id", VInt (Z.of_nat i));
    ("Category", VStr "Potholes");
    ("Created_at_local", VStr ("2024-03-05 10:" +:+ pad4 i)) ].

(** [n] features numbered from [start]. *)
Definition sample_features (start n : nat) : list feature :=
  (λ i, {| attributes := Some (sample_row i) |}) <$> seq start n.

(** Features whose [attributes] are empty dicts. *)
Definition bare_features (n : nat) : list feature :=
  replicate n {| attributes := Some [] |}.

Definition body_of (fs : list feature) : body :=
  {| error := None; features := Some fs; fields := None |}.

Definition sample_now (k : nat) : datetime :=
  {| isoformat := "2024-03-05T10:20:30"; strftime := "20240305_102030" |}.

(** A mocked transport: the [k]-th request is answered by the [k]-th entry
    of [script] whatever it asks, and by a body without features once the
    script is over. The disk accepts everything. *)
Definition mock (script : list (res body)) : env :=
  {| http := λ k _, nth k script (Ok (body_of []));
     now := sample_now;
     makedirs_ok := λ _, true;
     open_ok := λ _, true;
     reduce_other := λ _ _, Raise (TypeError "unsupported operand") |}.

(** A service over a fixed table that honours [resultOffset] and
    [resultRecordCount] and rejects a request without them or with a
    negative one. *)
Definition service (table : list row) : env :=
  {| http := λ _ r,
       match params r !! "resultOffset", params r !! "resultRecordCount" with
       | Some (PInt o), Some (PInt c) =>
           if (0 <=? o) && (0 <=? c)
           then Ok (body_of ((λ a, {| attributes := Some a |})
                             <$> take (Z.to_nat c) (drop (Z.to_nat o) table)))
           else Raise (RequestException "400 Client Error: Bad Request")
       | _, _ => Raise (RequestException "400 Client Error: Bad Request")
       end;
     now := sample_now;
     makedirs_ok := λ _, true;
     open_ok := λ _, true;
     reduce_other := λ _ _, Raise (TypeError "unsupported operand") |}.

(** The script of three full-featured pages of 2000, 2000 and 437 rows. *)
Definition three_pages : list body :=
  [ body_of (sample_features 0 2000);
    body_of (sample_features 2000 2000);
    body_of (sample_features 4000 437) ].

(** The same sizes, but every feature has an empty [attributes] dict. *)
Definition three_bare_pages : list body :=
  [ body_of (bare_features 2000);
    body_of (bare_features 2000);
    body_of (bare_features 437) ].

(** A table of seven rows. *)
Definition seven_rows : list row := sample_row <$> seq 0 7.

(** A body reporting an error although the transport succeeded. *)
Definition error_body : body :=
  {| error := Some "{'code': 400, 'message': 'Invalid query'}";
     features := None;
     fields := None |}.

(** The frame of the first three sample rows. *)
Definition sample_frame : DataFrame := page_of (body_of (sample_features 0 3)).


(** ** The time-windowed fetch *)

(** [fetch_recent]. The client only keeps two renderings of a clock
    reading, so the date arithmetic of the libraries is taken as an
    argument: [cutoff t days] is
    [(t - pd.Timedelta(days=days)).strftime('%Y-%m-%d')] for the reading
    [t], or the exception that arithmetic raises (a span or a date out of
    range). The loop of [fetch_all_records] is bounded by [fuel] as before. *)
Definition fetch_recent (cutoff : datetime → Z → res string) (fuel : nat) (days : Z)
    : M (option DataFrame) :=
  t ← datetime_now;
  date_str ← (λ _ s, (cutoff t days, s));
  let where_clause := "Created_at_local >= '" +:+ date_str +:+ "'" in
  print ("Fetching requests from last " +:+ pretty days +:+ " days (since "
         +:+ date_str +:+ ")...");;
  fetch_all_records fuel 2000 None where_clause false "data/raw".

(** ** Further notions *)

(** [d.get(k)]: the value under the first entry for [k]. *)
Fixpoint dict_get (d : row) (k : string) : option value :=
  match d with
  | [] => None
  | (k', v) :: d' => if bool_decide (k' = k) then Some v else dict_get d' k
  end.

(** The line [get_field_info] prints for a field descriptor. *)
Definition print_field (field : row) : M unit :=
  n ← getitem field "name";
  t ← getitem field "type";
  print ("  - " +:+ str n +:+ " (" +:+ str t +:+ ")").

Definition field_line (field : row) : option string :=
  n ← dict_get field "name";
  t ← dict_get field "type";
  Some ("  - " +:+ str n +:+ " (" +:+ str t +:+ ")").

(** What [fetch_records] prints once its request is answered. *)
Definition fetch_log (o : res body) : list string :=
  match o with
  | Ok data =>
      match error data with
      | Some payload => [nl +:+ "API Error: " +:+ payload]
      | None =>
          match default [] (features data) with
          | [] => ["No records found."]
          | fs => ["✓ Retrieved " +:+ pretty (Z.of_nat (length fs)) +:+ " raw records"]
          end
      end
  | Raise _ => []
  end.

(** The request [get_field_info] sends. *)
Definition metadata_request (s : state) : request :=
  {| url := replace BASE_URL "/query" "";
     params := {[ "f" := PStr "json" ]};
     req_timeout := timeout (self s) |}.

(** The offsets at which pages are asked for, starting from [o]: each page
    moves the offset by its number of rows. *)
Fixpoint offsets_from (o : Z) (pages : list DataFrame) : list Z :=
  match pages with
  | [] => []
  | p :: ps => o :: offsets_from (o + len p) ps
  end.

(** The file a batch is saved to, and what [to_csv] writes for a frame. *)
Definition batch_file (output_dir : string) (batch_num : nat) : string :=
  path_join output_dir ("raw_batch_" +:+ pad4 batch_num +:+ ".csv").

Definition csv_of (df : DataFrame) : file :=
  Csv (columns df) ((λ r, (λ c, cell c r) <$> columns df) <$> rows df).

(** [a] zeros, the padding of [pad4]. *)
Definition zeros (a : nat) : string := String.concat "" (replicate a "0").

(** The features of a list of rows. *)
Definition features_of (l : list row) : list feature :=
  (λ a, {| attributes := Some a |}) <$> l.

(** A service that pages through [table]: whatever the rank of the
    request, it answers a non-negative [resultOffset] [o] and
    [resultRecordCount] [c] with the [c] rows that follow the first [o]. *)
Definition pages_through (E : env) (table : list row) : Prop :=
  ∀ k r o c,
    params r !! "resultOffset" = Some (PInt o) →
    params r !! "resultRecordCount" = Some (PInt c) →
    0 ≤ o → 0 ≤ c →
    http E k r = Ok (body_of (features_of (take (Z.to_nat c) (drop (Z.to_nat o) table)))).

(** [old in s] *)
Fixpoint contains (old s : string) : bool :=
  prefix_of old s
  || match s with
     | EmptyString => false
     | String _ s' => contains old s'
     end.

(** The name [save_raw_data] gives the table. *)
Definition table_name (filename : option string) (t : datetime) : string :=
  match filename with
  | Some f => f
  | None => "syracuse_311_raw_" +:+ strftime t +:+ ".csv"
  end.

(** A disk that refuses every file whose name ends in [.json]. *)
Definition no_json_disk : env :=
  {| http := λ _ _, Ok (body_of []);
     now := sample_now;
     makedirs_ok := λ _, true;
     open_ok := λ path, negb (prefix_of "nosj." (String.rev path));
     reduce_other := λ _ _, Raise (TypeError "unsupported operand") |}.

(** * Properties *)

(** ** The request builder *)

(** Unfolding the operations of the monad. *)
Ltac unfold_M := unfold mbind, M_bind, bind.

Lemma lookup_record_count limit offset w flds rg ob :
  query_params limit offset w flds rg ob !! "resultRecordCount"
  = Some (PInt (Z.min limit 2000)).
Proof. unfold query_params. by destruct ob as [[|c o]|]. Qed.

Lemma lookup_offset limit offset w flds rg ob :
  query_params limit offset w flds rg ob !! "resultOffset" = Some (PInt offset).
Proof. unfold query_params. by destruct ob as [[|c o]|]. Qed.

(** [fetch_records] sends one request and turns its outcome into a page or
    a failure; the client object is left as it is. *)
Lemma fetch_records_run E s limit offset w flds rg ob :
  let r := page_request s limit offset w flds rg ob in
  ∃ s', fetch_records limit offset w flds rg ob E s
        = (page_outcome (timeout (self s)) (http E (length (requests s)) r), s')
      ∧ requests s' = requests s ++ [r] ∧ self s' = self s.
Proof.
  intros r. subst r.
  unfold page_request, fetch_records, _make_request, try_except, session_get,
    get_self, print, raise.
  unfold_M. simpl.
  destruct (http E _ _) as [data|e].
  - simpl. destruct (error data); simpl.
    + eexists; split; [reflexivity|]. simpl. done.
    + unfold page_of.
      destruct (default [] (features data)); simpl; eexists; (split; [reflexivity|]); done.
  - destruct e; simpl; eexists; (split; [reflexivity|]); done.
Qed.

Lemma page_outcome_Ok t o p :
  page_outcome t o = Ok p → ∃ b, o = Ok b ∧ error b = None ∧ p = page_of b.
Proof.
  destruct o as [b|e]; cbn.
  - destruct (error b) eqn:He; [done|]. intros [= <-]. eauto.
  - by destruct e.
Qed.


Lemma fetch_records_requests E s limit offset w flds rg ob :
  requests (fetch_records limit offset w flds rg ob E s).2
  = requests s ++ [page_request s limit offset w flds rg ob]
  ∧ self (fetch_records limit offset w flds rg ob E s).2 = self s.
Proof.
  destruct (fetch_records_run E s limit offset w flds rg ob) as (s' & -> & Hreq & Hself). done.
Qed.

(** C1. Whatever [limit] is asked for, [fetch_records] sends exactly one
    request, and its [resultRecordCount] is [min(limit, 2000)], which is
    at most 2000. *)
Theorem fetch_records_record_count E s limit offset w flds rg ob :
  ∃ r, requests (fetch_records limit offset w flds rg ob E s).2 = requests s ++ [r]
    ∧ params r !! "resultRecordCount" = Some (PInt (Z.min limit 2000))
    ∧ Z.min limit 2000 ≤ 2000.
Proof.
  exists (page_request s limit offset w flds rg ob).
  split; [apply fetch_records_requests|]. split; [apply lookup_record_count|lia].
Qed.

(** C5. When the decoded body of the response has an [error] key,
    [fetch_records] raises [Exception("API Error: ...")] with the payload
    in its message and returns no frame, although the transport
    succeeded. *)
Theorem fetch_records_api_error E s limit offset w flds rg ob b payload :
  http E (length (requests s)) (page_request s limit offset w flds rg ob) = Ok b →
  error b = Some payload →
  (fetch_records limit offset w flds rg ob E s).1
  = Raise (Exception ("API Error: " +:+ payload))
  ∧ ∀ df, (fetch_records limit offset w flds rg ob E s).1 ≠ Ok df.
Proof.
  intros Hb Herr.
  destruct (fetch_records_run E s limit offset w flds rg ob) as (s' & -> & _).
  rewrite Hb. cbn [page_outcome fst]. by rewrite Herr.
Qed.

(** A response with status 200 and an error in its body. *)
Lemma fetch_records_api_error_witness :
  (fetch_records 100 0 "1=1" None false None (mock [Ok error_body]) (init 30)).1
  = Raise (Exception "API Error: {'code': 400, 'message': 'Invalid query'}").
Proof.
  apply (fetch_records_api_error (mock [Ok error_body]) (init 30) 100 0 "1=1" None false None
           error_body "{'code': 400, 'message': 'Invalid query'}"); reflexivity.
Defined.

Lemma str_app_cons c s t : String c s +:+ t = String c (s +:+ t).
Proof. done. Qed.

Lemma str_length_app s t :
  String.length (s +:+ t) = (String.length s + String.length t)%nat.
Proof.
  induction s as [|c s IH]; [done|].
  rewrite str_app_cons. cbn [String.length]. by rewrite IH.
Qed.

Lemma str_app_inv_tail s1 s2 t : s1 +:+ t = s2 +:+ t → s1 = s2.
Proof.
  revert s2. induction s1 as [|c s1 IH]; intros [|d s2] H.
  - done.
  - apply (f_equal String.length) in H. rewrite !str_length_app in H. cbn in H. lia.
  - apply (f_equal String.length) in H. rewrite !str_length_app in H. cbn in H. lia.
  - rewrite !str_app_cons in H. injection H as -> H. f_equal. by apply IH.
Qed.

(** C6. A timeout of the transport makes [_make_request] raise the
    timeout failure, whose message holds the configured duration; any
    other [RequestException] makes it raise the transport failure, whose
    message holds the message of the underlying exception; a body with an
    [error] key makes it return and its caller [fetch_records] raise the
    API failure. The duration and the messages can be read back from the
    failures, and a timeout failure, a transport failure and an API
    failure are never equal. *)
Theorem make_request_failure_kinds E s p :
  let o := http E (length (requests s))
             {| url := BASE_URL; params := p; req_timeout := timeout (self s) |} in
  (∀ m, o = Raise (Timeout m) →
        (_make_request p E s).1 = Raise (timeout_failure (timeout (self s))))
  ∧ (∀ m, o = Raise (RequestException m) →
          (_make_request p E s).1 = Raise (transport_failure m))
  ∧ (∀ b q limit offset w flds rg ob,
       p = query_params limit offset w flds rg ob →
       o = Ok b → error b = Some q →
       (_make_request p E s).1 = Ok b
       ∧ (fetch_records limit offset w flds rg ob E s).1 = Raise (api_failure q))
  ∧ (∀ t t', timeout_failure t = timeout_failure t' → t = t')
  ∧ (∀ m m', transport_failure m = transport_failure m' → m = m')
  ∧ (∀ q q', api_failure q = api_failure q' → q = q')
  ∧ (∀ t m q,
       timeout_failure t ≠ transport_failure m
       ∧ timeout_failure t ≠ api_failure q
       ∧ transport_failure m ≠ api_failure q).
Proof.
  intros o. subst o.
  split; [|split; [|split]].
  { unfold _make_request, try_except, session_get, get_self, raise. unfold_M.
    cbn [fst snd self]. by intros m ->. }
  { unfold _make_request, try_except, session_get, get_self, raise. unfold_M.
    cbn [fst snd self]. by intros m ->. }
  { intros b q limit offset w flds rg ob -> Hb Herr. split.
    - unfold _make_request, try_except, session_get, get_self. unfold_M.
      cbn [fst snd self]. by rewrite Hb.
    - destruct (fetch_records_run E s limit offset w flds rg ob) as (s' & -> & _).
      unfold page_request. rewrite Hb. cbn [page_outcome fst]. by rewrite Herr. }
  unfold timeout_failure, transport_failure, api_failure.
  split; [|split; [|split]].
  - intros t t' [= H]. apply (inj (String.append _)), str_app_inv_tail in H.
    by apply (inj pretty).
  - intros m m' [= H]. by apply (inj (String.append _)) in H.
  - intros q q' [= H]. by apply (inj (String.append _)) in H.
  - intros t m q. cbv [String.append]. by repeat split.
Qed.

(** A transport that times out, with the default timeout of 30 seconds. *)
Lemma make_request_failure_kinds_witness :
  (_make_request ∅ (mock [Raise (Timeout "Read timed out.")]) (init 30)).1
  = Raise (Exception "Request timed out after 30 seconds")
  ∧ (_make_request ∅ (mock [Raise (RequestException "404 Client Error")]) (init 30)).1
    = Raise (Exception "API request failed: 404 Client Error").
Proof.
  split.
  - apply (proj1 (make_request_failure_kinds
                    (mock [Raise (Timeout "Read timed out.")]) (init 30) ∅)
             "Read timed out.").
    reflexivity.
  - apply (proj1 (proj2 (make_request_failure_kinds
                           (mock [Raise (RequestException "404 Client Error")]) (init 30) ∅))
             "404 Client Error").
    reflexivity.
Defined.

Example api_failure_after_success :
  (fetch_records 100 0 "1=1" None false None (mock [Ok error_body]) (init 30)).1
  = Raise (api_failure "{'code': 400, 'message': 'Invalid query'}").
Proof. reflexivity. Qed.

(** ** The field metadata *)

Example metadata_url :
  replace BASE_URL "/query" ""
  = "https://services6.arcgis.com/bdPqSfflsdgFRVVM/arcgis/rest/services/SYRCityline_Requests_2021_Present/FeatureServer/0".
Proof. reflexivity. Qed.

(** C9. [get_field_info] never raises. Whatever exception its [try] block
    ends with, it prints one line naming the exception and returns the
    empty list; in particular so for every failure of the request itself.
    When the block succeeds its result is returned. *)
Theorem get_field_info_never_raises E s :
  (∃ fs, (get_field_info E s).1 = Ok fs)
  ∧ (∀ e s1, get_field_info_try E s = (Raise e, s1) →
       (get_field_info E s).1 = Ok []
       ∧ stdout (get_field_info E s).2
         = stdout s1 ++ ["Could not fetch field info: " +:+ str_exn e])
  ∧ (∀ e, http E (length (requests s))
            {| url := replace BASE_URL "/query" "";
               params := {[ "f" := PStr "json" ]};
               req_timeout := timeout (self s) |} = Raise e →
       (get_field_info E s).1 = Ok []
       ∧ stdout (get_field_info E s).2
         = stdout s ++ ["Could not fetch field info: " +:+ str_exn e])
  ∧ (∀ fs s1, get_field_info_try E s = (Ok fs, s1) →
       get_field_info E s = (Ok fs, s1)).
Proof.
  unfold get_field_info, try_except.
  split; [|split; [|split]].
  - destruct (get_field_info_try E s) as [[fs|e] s1]; cbn; eauto.
  - by intros e s1 ->.
  - intros e He. unfold get_field_info_try, session_get, get_self. unfold_M.
    by rewrite He.
  - by intros fs s1 ->.
Qed.

(** The metadata request times out. *)
Lemma get_field_info_never_raises_witness :
  (get_field_info (mock [Raise (Timeout "Read timed out.")]) (init 30)).1 = Ok []
  ∧ stdout (get_field_info (mock [Raise (Timeout "Read timed out.")]) (init 30)).2
    = ["Could not fetch field info: Read timed out."].
Proof.
  apply (proj1 (proj2 (proj2 (get_field_info_never_raises
                                (mock [Raise (Timeout "Read timed out.")]) (init 30))))
           (Timeout "Read timed out.")).
  reflexivity.
Defined.

(** A descriptor without [type]: the [KeyError] of the printing loop is
    caught as well, and the names are not recorded. *)
Example get_field_info_key_error :
  let E := mock [Ok {| error := None; features := None;
                       fields := Some [ [("name", VStr "Id"); ("type", VStr "esriFieldTypeOID")];
                                        [("name", VStr "Lat")] ] |}] in
  (get_field_info E (init 30)).1 = Ok []
  ∧ last (stdout (get_field_info E (init 30)).2) = Some "Could not fetch field info: 'type'"
  ∧ _field_names (self (get_field_info E (init 30)).2) = None.
Proof. by vm_compute. Qed.

Example get_field_info_success :
  let E := mock [Ok {| error := None; features := None;
                       fields := Some [ [("name", VStr "Id"); ("type", VStr "esriFieldTypeOID")];
                                        [("name", VStr "Lat"); ("type", VStr "esriFieldTypeDouble")] ] |}] in
  (get_field_info E (init 30)).1
  = Ok [ [("name", VStr "Id"); ("type", VStr "esriFieldTypeOID")];
         [("name", VStr "Lat"); ("type", VStr "esriFieldTypeDouble")] ]
  ∧ _field_names (self (get_field_info E (init 30)).2) = Some [VStr "Id"; VStr "Lat"].
Proof. by vm_compute. Qed.

(** ** Pagination *)

Example batch_file_names :
  path_join "data/raw" ("raw_batch_" +:+ pad4 7 +:+ ".csv") = "data/raw/raw_batch_0007.csv"
  ∧ path_join "data/raw/" "x.csv" = "data/raw/x.csv"
  ∧ path_join "data/raw" "/tmp/x.csv" = "/tmp/x.csv"
  ∧ path_join "" "x.csv" = "x.csv"
  ∧ pad4 123 = "0123".
Proof. by vm_compute. Qed.

Lemma quiet_save_batch sr od bn p : quiet (save_batch sr od bn p).
Proof.
  intros E s. unfold save_batch, to_csv, write_file, print. unfold_M.
  destruct sr; [|done]. by destruct (open_ok E _).
Qed.

Lemma quiet_announce bs sr od : quiet (announce bs sr od).
Proof.
  intros E s. unfold announce, makedirs, print. unfold_M.
  destruct sr; [|done]. by destruct (makedirs_ok E _).
Qed.

Lemma announce_Ok bs sr od E s :
  (sr = true → makedirs_ok E od = true) →
  ∃ s0, announce bs sr od E s = (Ok tt, s0)
      ∧ requests s0 = requests s ∧ self s0 = self s.
Proof.
  intros Hmk. unfold announce, makedirs, print. unfold_M.
  destruct sr; [rewrite Hmk by done|]; eauto.
Qed.

Lemma save_batch_Ok sr od bn p E s :
  (sr = true → ∀ path, open_ok E path = true) →
  ∃ s2, save_batch sr od bn p E s = (Ok tt, s2)
      ∧ requests s2 = requests s ∧ self s2 = self s.
Proof.
  intros Hopen. unfold save_batch, to_csv, write_file, print. unfold_M.
  destruct sr; [rewrite Hopen by done|]; eauto.
Qed.

(** One iteration of the loop. *)
Lemma loop_S fuel bs mr w sr od all_data offset bn E s :
  fetch_all_loop (S fuel) bs mr w sr od all_data offset bn E s =
  match fetch_records bs offset w None false None E s with
  | (Raise e, s1) => (Raise e, s1)
  | (Ok p, s1) =>
      if empty p then (Ok (Some all_data), s1)
      else
        match save_batch sr od bn p E s1 with
        | (Raise e, s2) => (Raise e, s2)
        | (Ok _, s2) =>
            if cap_reached mr (offset + len p)
            then (Ok (Some (all_data ++ [p])),
                  (print ("Reached max_records limit (" +:+ pretty (default 0 mr) +:+ ")")
                     E s2).2)
            else if len p <? bs then (Ok (Some (all_data ++ [p])), s2)
            else fetch_all_loop fuel bs mr w sr od (all_data ++ [p]) (offset + len p) (S bn)
                   E (sleep_half E s2).2
        end
  end.
Proof.
  cbn [fetch_all_loop]. unfold_M.
  destruct (fetch_records _ _ _ _ _ _ E s) as [[p|e] s1]; [|done].
  destruct (empty p); [done|].
  unfold save_batch.
  destruct sr.
  - unfold to_csv, write_file, print. unfold_M. destruct (open_ok E _); [|done].
    destruct (cap_reached _ _); [done|]. destruct (_ <? _); done.
  - cbn [ret]. destruct (cap_reached _ _); [done|]. destruct (_ <? _); done.
Qed.

(** [fetch_all_records] around its loop. *)
Lemma fetch_all_records_unfold fuel bs mr w sr od E s :
  fetch_all_records fuel bs mr w sr od E s =
  match announce bs sr od E s with
  | (Raise e, s0) => (Raise e, s0)
  | (Ok _, s0) =>
      match fetch_all_loop fuel bs mr w sr od [] 0 0%nat E s0 with
      | (Raise e, s1) => (Raise e, s1)
      | (Ok None, s1) => (Ok None, s1)
      | (Ok (Some []), s1) => (Ok (Some DataFrame_empty), s1)
      | (Ok (Some (p :: ps)), s1) =>
          let s2 :=
            (print (nl +:+ "✓ Total raw records fetched: "
                    +:+ pretty (len (concat (p :: ps)))) E s1).2 in
          (Ok (Some (combined (p :: ps) (now E (ticks s2)))), (datetime_now E s2).2)
      end
  end.
Proof.
  unfold fetch_all_records, announce. unfold_M.
  destruct sr.
  - unfold makedirs. destruct (makedirs_ok E od); [|done]. cbn [print].
    destruct (fetch_all_loop _ _ _ _ _ _ _ _ _ E _) as [[[[|p ps]|]|e] s1]; done.
  - cbn [ret print].
    destruct (fetch_all_loop _ _ _ _ _ _ _ _ _ E _) as [[[[|p ps]|]|e] s1]; done.
Qed.


Lemma total_cons p l : total (p :: l) = len p + total l.
Proof. done. Qed.

Lemma len_nonneg p : 0 ≤ len p.
Proof. unfold len. lia. Qed.

Lemma empty_false_len p : empty p = false → 1 ≤ len p.
Proof.
  unfold empty, len. destruct (rows p) as [|r rs]; [done|]. cbn [length]. lia.
Qed.

Lemma empty_false_iff p : empty p = false ↔ rows p ≠ [] ∧ columns p ≠ [].
Proof.
  unfold empty. destruct (rows p), (columns p); split; try done; by intros [? ?].
Qed.

Lemma rows_concat pages : rows (concat pages) = mjoin (rows <$> pages).
Proof. done. Qed.

Lemma len_concat pages : len (concat pages) = total pages.
Proof.
  unfold len. rewrite rows_concat.
  induction pages as [|p ps IH]; [done|].
  rewrite total_cons, <- IH. cbn [fmap list_fmap mjoin list_join].
  by rewrite length_app, Nat2Z.inj_add.
Qed.




(** One iteration of the loop on a page that is not empty, when the disk
    accepts the batch file, no cap is set and the page fills the batch. *)
Lemma loop_full_page E bs w sr od fuel all_data offset bn s b :
  (sr = true → ∀ path, open_ok E path = true) →
  (∀ r, http E (length (requests s)) r = Ok b) →
  error b = None →
  empty (page_of b) = false →
  bs ≤ len (page_of b) →
  ∃ s1, fetch_all_loop (S fuel) bs None w sr od all_data offset bn E s
        = fetch_all_loop fuel bs None w sr od (all_data ++ [page_of b])
            (offset + len (page_of b)) (S bn) E s1
      ∧ requests s1 = requests s ++ [page_request s bs offset w None false None]
      ∧ self s1 = self s.
Proof.
  intros Hdisk Hb Herr Hemp Hfull. rewrite loop_S.
  destruct (fetch_records_run E s bs offset w None false None) as (sx & -> & Hr1 & Hs1).
  rewrite Hb. cbn [page_outcome]. rewrite Herr, Hemp.
  destruct (save_batch_Ok sr od bn (page_of b) E sx Hdisk) as (s2 & -> & Hr2 & Hs2).
  cbn [cap_reached]. apply Z.ltb_ge in Hfull. rewrite Hfull.
  eexists. split; [done|]. cbn [sleep_half snd requests self]. by rewrite Hr2, Hs2.
Qed.

(** The last iteration: a page that is not empty and does not fill the
    batch. *)
Lemma loop_short_page E bs w sr od fuel all_data offset bn s b :
  (sr = true → ∀ path, open_ok E path = true) →
  (∀ r, http E (length (requests s)) r = Ok b) →
  error b = None →
  empty (page_of b) = false →
  len (page_of b) < bs →
  ∃ s1, fetch_all_loop (S fuel) bs None w sr od all_data offset bn E s
        = (Ok (Some (all_data ++ [page_of b])), s1)
      ∧ requests s1 = requests s ++ [page_request s bs offset w None false None]
      ∧ self s1 = self s.
Proof.
  intros Hdisk Hb Herr Hemp Hshort. rewrite loop_S.
  destruct (fetch_records_run E s bs offset w None false None) as (sx & -> & Hr1 & Hs1).
  rewrite Hb. cbn [page_outcome]. rewrite Herr, Hemp.
  destruct (save_batch_Ok sr od bn (page_of b) E sx Hdisk) as (s2 & -> & Hr2 & Hs2).
  cbn [cap_reached]. apply Z.ltb_lt in Hshort. rewrite Hshort.
  eexists. split; [done|]. by rewrite Hr2, Hs2.
Qed.

(** C2 (as amended). Batches of 2000 and no cap: when the first three
    responses carry pages of 2000, 2000 and 437 rows, each with at least
    one column, and the disk accepts the batch files if they are saved,
    the run makes exactly three requests, at offsets 0, 2000 and 4000, and
    returns the 4437 rows of the three pages in the order fetched. *)
Theorem pagination_three_pages E s w sr od fuel b1 b2 b3 :
  (3 ≤ fuel)%nat →
  (sr = true → makedirs_ok E od = true ∧ ∀ path, open_ok E path = true) →
  (∀ r, http E (length (requests s)) r = Ok b1) →
  (∀ r, http E (S (length (requests s))) r = Ok b2) →
  (∀ r, http E (S (S (length (requests s)))) r = Ok b3) →
  error b1 = None ∧ error b2 = None ∧ error b3 = None →
  len (page_of b1) = 2000 ∧ len (page_of b2) = 2000 ∧ len (page_of b3) = 437 →
  columns (page_of b1) ≠ [] ∧ columns (page_of b2) ≠ [] ∧ columns (page_of b3) ≠ [] →
  ∃ df s',
    fetch_all_records fuel 2000 None w sr od E s = (Ok (Some df), s')
    ∧ requests s' = requests s ++ [ page_request s 2000 0 w None false None;
                                    page_request s 2000 2000 w None false None;
                                    page_request s 2000 4000 w None false None ]
    ∧ (λ r, params r !! "resultOffset") <$> drop (length (requests s)) (requests s')
      = [Some (PInt 0); Some (PInt 2000); Some (PInt 4000)]
    ∧ rows df = rows (page_of b1) ++ rows (page_of b2) ++ rows (page_of b3)
    ∧ len df = 4437.
Proof.
  intros Hfuel Hdisk H1 H2 H3 (He1 & He2 & He3) (Hl1 & Hl2 & Hl3) (Hc1 & Hc2 & Hc3).
  assert (∀ b n, len (page_of b) = n → 0 < n → columns (page_of b) ≠ [] →
                 empty (page_of b) = false) as Hne.
  { intros b n Hl Hn Hc. apply empty_false_iff. split; [|done].
    intros Hr. unfold len in Hl. rewrite Hr in Hl. cbn in Hl. lia. }
  destruct fuel as [|[|[|fuel]]]; [lia..|].
  rewrite fetch_all_records_unfold.
  destruct (announce_Ok 2000 sr od E s) as (s0 & -> & Hr0 & Hs0);
    [intros; by apply Hdisk|].
  assert (sr = true → ∀ path, open_ok E path = true) as Hopen by (intros; by apply Hdisk).
  rewrite <- Hr0 in H1, H2, H3.
  destruct (loop_full_page E 2000 w sr od (S (S fuel)) [] 0 0%nat s0 b1)
    as (s1 & -> & Hr1 & Hs1); [done|done|done|by eapply Hne|lia|].
  cbn [app].
  assert (length (requests s1) = S (length (requests s0))) as Hn1
    by (rewrite Hr1, length_app; cbn; lia).
  rewrite <- Hn1 in H2, H3.
  destruct (loop_full_page E 2000 w sr od (S fuel) [page_of b1] (0 + len (page_of b1))
              1%nat s1 b2) as (s2 & -> & Hr2 & Hs2); [done|done|done|by eapply Hne|lia|].
  assert (length (requests s2) = S (length (requests s1))) as Hn2
    by (rewrite Hr2, length_app; cbn; lia).
  rewrite <- Hn2 in H3.
  destruct (loop_short_page E 2000 w sr od fuel ([page_of b1] ++ [page_of b2])
              (0 + len (page_of b1) + len (page_of b2)) 2%nat s2 b3)
    as (s3 & -> & Hr3 & Hs3); [done|done|done|by eapply Hne|lia|].
  cbn [app]. cbn zeta.
  eexists _, _. split; [done|].
  cbn [datetime_now print snd requests].
  rewrite Hr3, Hr2, Hr1, Hr0, Hl1, Hl2. unfold page_request. rewrite Hs2, Hs1, Hs0.
  rewrite <- !app_assoc. cbn [app]. split; [done|].
  split.
  { rewrite drop_app_length. cbn [fmap list_fmap params]. by rewrite !lookup_offset. }
  split.
  { cbn. by rewrite app_nil_r. }
  change (len (concat [page_of b1; page_of b2; page_of b3]) = 4437).
  rewrite len_concat, !total_cons. cbn [total foldr]. lia.
Qed.

(** Three pages of the stated sizes, served and saved. *)
Lemma pagination_three_pages_witness :
  ∃ df s',
    fetch_all_records 3 2000 None "1=1" true "data/raw" (mock (Ok <$> three_pages)) (init 30)
    = (Ok (Some df), s')
    ∧ length (requests s') = 3%nat
    ∧ len df = 4437.
Proof.
  destruct (pagination_three_pages (mock (Ok <$> three_pages)) (init 30) "1=1" true "data/raw" 3
              (body_of (sample_features 0 2000)) (body_of (sample_features 2000 2000))
              (body_of (sample_features 4000 437)))
    as (df & s' & Hrun & Hreq & _ & _ & Hlen).
  - lia.
  - intros _. split; [reflexivity|]. intros path. reflexivity.
  - intros r. reflexivity.
  - intros r. reflexivity.
  - intros r. reflexivity.
  - repeat split.
  - vm_compute. repeat split.
  - vm_compute. repeat split; discriminate.
  - exists df, s'. split; [exact Hrun|]. split; [|exact Hlen].
    rewrite Hreq. reflexivity.
Defined.

(** C2 as stated does not hold: three pages of 2000, 2000 and 437 rows
    whose rows have no field. The first page counts as empty, so the run
    makes one request and returns [pd.DataFrame()]. *)
Lemma three_bare_pages_end_the_run :
  let E := mock (Ok <$> three_bare_pages) in
  let run := fetch_all_records 3 2000 None "1=1" false "data/raw" E (init 30) in
  len <$> (page_of <$> three_bare_pages) = [2000; 2000; 437]
  ∧ run.1 = Ok (Some DataFrame_empty)
  ∧ length (requests run.2) = 1%nat
  ∧ len DataFrame_empty ≠ 4437.
Proof. vm_compute. done. Qed.








(** C4. When the first page is empty the run makes exactly one request and
    returns [pd.DataFrame()] as an ordinary value. More generally, a run
    whose loop ends without a batch returns [pd.DataFrame()] and does not
    raise. *)
Theorem empty_first_page E s bs mr w sr od fuel :
  (∀ b, (1 ≤ fuel)%nat →
        (sr = true → makedirs_ok E od = true) →
        http E (length (requests s)) (page_request s bs 0 w None false None) = Ok b →
        error b = None →
        empty (page_of b) = true →
        ∃ s', fetch_all_records fuel bs mr w sr od E s = (Ok (Some DataFrame_empty), s')
            ∧ requests s' = requests s ++ [page_request s bs 0 w None false None])
  ∧ (∀ s0 s1, announce bs sr od E s = (Ok tt, s0) →
              fetch_all_loop fuel bs mr w sr od [] 0 0%nat E s0 = (Ok (Some []), s1) →
              fetch_all_records fuel bs mr w sr od E s = (Ok (Some DataFrame_empty), s1)).
Proof.
  split.
  - intros b Hfuel Hmk Hb Herr Hemp. destruct fuel as [|fuel]; [lia|].
    rewrite fetch_all_records_unfold.
    destruct (announce_Ok bs sr od E s Hmk) as (s0 & -> & Hr0 & Hs0).
    rewrite loop_S.
    destruct (fetch_records_run E s0 bs 0 w None false None) as (sx & -> & Hr1 & _).
    unfold page_request in *. rewrite Hs0, Hr0 in *. rewrite Hb. cbn [page_outcome].
    rewrite Herr, Hemp. by exists sx.
  - intros s0 s1 Hann Hloop. rewrite fetch_all_records_unfold. by rewrite Hann, Hloop.
Qed.

(** A first response without features. *)
Lemma empty_first_page_witness :
  ∃ s', fetch_all_records 1 2000 None "1=1" true "data/raw" (mock []) (init 30)
        = (Ok (Some DataFrame_empty), s')
      ∧ length (requests s') = 1%nat.
Proof.
  destruct (proj1 (empty_first_page (mock []) (init 30) 2000 None "1=1" true "data/raw" 1)
              (body_of [])) as (s' & Hrun & Hreq).
  - lia.
  - reflexivity.
  - reflexivity.
  - reflexivity.
  - reflexivity.
  - exists s'. split; [exact Hrun|]. rewrite Hreq. reflexivity.
Defined.

Lemma loop_zero_cap E bs w sr od fuel : ∀ all_data offset bn s,
  fetch_all_loop fuel bs (Some 0) w sr od all_data offset bn E s
  = fetch_all_loop fuel bs None w sr od all_data offset bn E s.
Proof.
  induction fuel as [|fuel IH]; intros all_data offset bn s; [done|].
  rewrite !loop_S.
  destruct (fetch_records bs offset w None false None E s) as [[p|e] s1]; [|done].
  destruct (empty p); [done|].
  destruct (save_batch sr od bn p E s1) as [[[]|e] s2]; [|done].
  change (cap_reached (Some 0) (offset + len p)) with false.
  change (cap_reached None (offset + len p)) with false.
  destruct (len p <? bs); [done|]. apply IH.
Qed.

(** A run with [max_records = 0] is the run without a cap: same
    requests, same output, same result. *)
Lemma fetch_all_records_zero_cap E s bs w sr od fuel :
  fetch_all_records fuel bs (Some 0) w sr od E s
  = fetch_all_records fuel bs None w sr od E s.
Proof.
  rewrite !fetch_all_records_unfold.
  destruct (announce bs sr od E s) as [[[]|e0] s0]; [|done].
  by rewrite loop_zero_cap.
Qed.

(** A cap of 0 on a table of seven rows, in batches of two: all seven rows
    are fetched, in four requests. *)
Example zero_cap_fetches_everything :
  let run := fetch_all_records 5 2 (Some 0) "1=1" false "data/raw" (service seven_rows)
               (init 30) in
  match run.1 with Ok (Some df) => len df = 7 | _ => False end
  ∧ (λ r : request, params r !! "resultOffset") <$> requests run.2
    = [Some (PInt 0); Some (PInt 2); Some (PInt 4); Some (PInt 6)].
Proof. by vm_compute. Qed.

(** ** Saving *)

(** Inversion of a successful run, one operation at a time. *)
Lemma bind_inv {A B} (m : M A) (k : A → M B) E s b s' :
  (m ≫= k) E s = (Ok b, s') →
  ∃ a s1, m E s = (Ok a, s1) ∧ k a E s1 = (Ok b, s').
Proof.
  unfold_M. destruct (m E s) as [[a|e] s1]; [|done]. eauto.
Qed.

Lemma makedirs_inv d E s u s1 :
  makedirs d E s = (Ok u, s1) → disk s1 = disk s ∧ ticks s1 = ticks s.
Proof. unfold makedirs. destruct (makedirs_ok E d); [|done]. by intros [= _ <-]. Qed.




Lemma all_str_strings ss : all_str (VStr <$> ss) = Some ss.
Proof.
  unfold all_str. induction ss as [|x ss IH]; [done|]. cbn in *. by rewrite IH.
Qed.

Lemma series_reduce_state is_max cells E s : (series_reduce is_max cells E s).2 = s.
Proof.
  unfold series_reduce. destruct (present cells) as [|v vs]; [done|].
  destruct (all_str (v :: vs)) as [[|? ?]|]; try destruct (forallb _ cells);
    try destruct (numbers cells); try destruct (existsb is_str (v :: vs)); done.
Qed.

Lemma all_str_Some l : ∀ ss, all_str l = Some ss → l = VStr <$> ss.
Proof.
  unfold all_str. induction l as [|v l IH]; intros ss.
  - by intros [= <-].
  - cbn. destruct v; try done. cbn. destruct (mapM _ l) as [ss'|] eqn:Hl; [|done].
    cbn. intros [= <-]. cbn. f_equal. by apply IH.
Qed.

Lemma present_strings ss : present (VStr <$> ss) = VStr <$> ss.
Proof. unfold present. induction ss as [|x ss IH]; [done|]. cbn. by rewrite IH. Qed.



Lemma series_reduce_cons is_max cells v vs :
  present cells = v :: vs →
  series_reduce is_max cells
  = match all_str (v :: vs) with
    | Some (s :: ss) =>
        let r := VStr (fold_left (if is_max then str_max else str_min) ss s) in
        if forallb (λ c, negb (missing c)) cells
        then ret r
        else λ E st, (match reduce_other E is_max cells with
                      | Raise e => Raise e
                      | Ok _ => Ok r
                      end, st)
    | _ =>
        if numbers cells
        then λ E st,
               (Ok (held (reduce_other E is_max cells) cells
                      (fold_left (if is_max then num_max else num_min) vs v)), st)
        else if existsb is_str (v :: vs)
        then λ E st, (Raise match reduce_other E is_max cells with
                            | Raise e => e
                            | Ok _ => TypeError "'<=' not supported between instances of 'str' and 'int'"
                            end, st)
        else λ E st, (reduce_other E is_max cells, st)
    end.
Proof. unfold series_reduce. by intros ->. Qed.


(** Without a missing cell it does not raise. *)
Lemma series_reduce_all_strings is_max c cs E s :
  series_reduce is_max (VStr <$> (c :: cs)) E s
  = (Ok (VStr (fold_left (if is_max then str_max else str_min) cs c)), s).
Proof.
  rewrite (series_reduce_cons _ _ (VStr c) (VStr <$> cs)) by apply present_strings.
  change (VStr c :: (VStr <$> cs)) with (VStr <$> (c :: cs)). rewrite all_str_strings.
  cbn zeta.
  assert (forallb (λ c0, negb (missing c0)) (VStr <$> (c :: cs)) = true) as ->; [|done].
  apply forallb_forall. by intros x (y & <- & _)%in_map_iff.
Qed.















(** A column of floats with a missing cell, a column of integers with a
    [null], and a string beside a number. *)
Example series_reduce_samples :
  let floats := [VFloat "2.5"; VNaN; VFloat "1e+16"; VFloat "-0.25"; VFloat "-inf"] in
  let as_floats :=
    {| http := λ _ _, Ok (body_of []); now := sample_now; makedirs_ok := λ _, true;
       open_ok := λ _, true; reduce_other := λ _ _, Ok (VFloat "0.0") |} in
  (series_reduce false floats (mock []) (init 30)).1 = Ok (VFloat "-inf")
  ∧ (series_reduce true floats (mock []) (init 30)).1 = Ok (VFloat "1e+16")
  ∧ (series_reduce true [VInt 5; VNone; VInt 7] (mock []) (init 30)).1 = Ok (VInt 7)
  ∧ (series_reduce true [VInt 5; VNone; VInt 7] as_floats (init 30)).1
    = Ok (VFloat "7.0")
  ∧ (series_reduce true [VInt 5; VInt 7] as_floats (init 30)).1 = Ok (VInt 7)
  ∧ ∃ e, (series_reduce false [VStr "b"; VInt 1] (mock []) (init 30)).1 = Raise e.
Proof. split_and!; [by vm_compute..|]. eexists. by vm_compute. Qed.











Lemma prefix_of_spec p s : prefix_of p s = true ↔ ∃ post, s = p +:+ post.
Proof.
  revert s. induction p as [|a p IH]; intros s; cbn [prefix_of].
  - split; [|done]. intros _. by exists s.
  - destruct s as [|b s].
    + split; [done|]. by intros [post Hpost].
    + rewrite andb_true_iff, bool_decide_eq_true, IH. split.
      * intros [-> [post ->]]. by exists post.
      * intros [post Hpost]. rewrite str_app_cons in Hpost. injection Hpost as -> ->. eauto.
Qed.

(** Where [.csv] occurs in a path only as its ending, the replacement
    swaps that ending. *)
Lemma replace_csv_ending base :
  (∀ pre post, base +:+ ".csv" = pre +:+ ".csv" +:+ post → post = "") →
  replace (base +:+ ".csv") ".csv" "_metadata.json" = base +:+ "_metadata.json".
Proof.
  unfold replace. induction base as [|c base IH]; intros Honly; [done|].
  rewrite !str_app_cons. cbn [replace_from].
  destruct (prefix_of ".csv" (String c (base +:+ ".csv"))) eqn:Hpre.
  - apply prefix_of_spec in Hpre as [post Hpost].
    pose proof (Honly "" post) as Hp. rewrite str_app_cons in Hp. specialize (Hp Hpost).
    subst post. apply (f_equal String.length) in Hpost.
    cbn [String.length] in Hpost. rewrite !str_length_app in Hpost. cbn in Hpost. lia.
  - f_equal. apply IH. intros pre post Heq. apply (Honly (String c pre) post).
    by rewrite !str_app_cons, Heq.
Qed.

(** The ending is swapped for the name the module's own example uses;
    occurrences are replaced from the left and do not overlap. *)
Example sidecar_of_sample_name :
  replace "data/raw/sample_raw_data.csv" ".csv" "_metadata.json"
  = "data/raw/sample_raw_data_metadata.json"
  ∧ replace "aaa" "aa" "b" = "ba"
  ∧ replace "abc" "" "-" = "-a-b-c-".
Proof. by vm_compute. Qed.

(** C8 fails on the code. The table is saved as
    [data/raw/requests.csv.2024.csv]; swapping the ending would put the
    metadata in [data/raw/requests.csv.2024_metadata.json], but
    [filepath.replace('.csv', '_metadata.json')] rewrites both occurrences
    and the metadata is written elsewhere. *)
Theorem save_raw_data_sidecar_path :
  let run := save_raw_data sample_frame (Some "requests.csv.2024.csv") "data/raw"
               (mock []) (init 30) in
  run.1 = Ok "data/raw/requests.csv.2024.csv"
  ∧ disk run.2 !! "data/raw/requests.csv.2024_metadata.json" = None
  ∧ ∃ m, disk run.2 !! "data/raw/requests_metadata.json.2024_metadata.json"
         = Some (Json m).
Proof. split; [by vm_compute|]. split; [by vm_compute|]. eexists. by vm_compute. Qed.

(** With a name that does not contain [.csv] the metadata path is the
    path of the table, and the metadata replaces the table on disk. *)
Lemma save_raw_data_sidecar_overwrites_table :
  let run := save_raw_data sample_frame (Some "export.txt") "data/raw" (mock []) (init 30) in
  run.1 = Ok "data/raw/export.txt"
  ∧ ∃ m, map_to_list (disk run.2) = [("data/raw/export.txt", Json m)].
Proof. split; [by vm_compute|]. eexists. by vm_compute. Qed.

(** * Further properties *)

(** ** Frames *)

Lemma add_labels_elem ks : ∀ cols c, c ∈ add_labels cols ks ↔ c ∈ cols ∨ c ∈ ks.
Proof.
  unfold add_labels. induction ks as [|k ks IH]; intros cols c; cbn [fold_left].
  - split; [by left|]. intros [?|?%elem_of_nil]; done.
  - rewrite IH. case_bool_decide as Hk.
    + rewrite elem_of_cons. split; [tauto|]. intros [?|[->|?]]; tauto.
    + rewrite elem_of_app, list_elem_of_singleton, elem_of_cons. tauto.
Qed.

Lemma add_labels_NoDup ks : ∀ cols, NoDup cols → NoDup (add_labels cols ks).
Proof.
  unfold add_labels. induction ks as [|k ks IH]; intros cols Hnd; cbn [fold_left]; [done|].
  apply IH. case_bool_decide as Hk; [done|].
  apply NoDup_app. split; [done|]. split; [|apply NoDup_singleton].
  intros x Hx ->%list_elem_of_singleton. done.
Qed.

Lemma records_labels_elem records : ∀ cols c,
  c ∈ fold_left (λ acc (r : row), add_labels acc r.*1) records cols
  ↔ c ∈ cols ∨ ∃ r, r ∈ records ∧ c ∈ r.*1.
Proof.
  induction records as [|r records IH]; intros cols c; cbn [fold_left].
  - split; [by left|]. intros [?|(r & ?%elem_of_nil & _)]; done.
  - rewrite IH, add_labels_elem. split.
    + intros [[?|?]|(r' & ? & ?)]; [by left| |].
      * right. exists r. split; [by left|done].
      * right. exists r'. split; [by right|done].
    + intros [?|(r' & [->|?]%elem_of_cons & ?)]; [by do 2 left|by left; right|].
      right. by exists r'.
Qed.

Lemma records_labels_NoDup records : ∀ cols,
  NoDup cols → NoDup (fold_left (λ acc (r : row), add_labels acc r.*1) records cols).
Proof.
  induction records as [|r records IH]; intros cols Hnd; cbn [fold_left]; [done|].
  by apply IH, add_labels_NoDup.
Qed.

(** ** The request builder, continued *)

(** The whole effect of [fetch_records]. *)
Lemma fetch_records_full E s limit offset w flds rg ob :
  let r := page_request s limit offset w flds rg ob in
  let run := fetch_records limit offset w flds rg ob E s in
  run.1 = page_outcome (timeout (self s)) (http E (length (requests s)) r)
  ∧ self run.2 = self s
  ∧ requests run.2 = requests s ++ [r]
  ∧ stdout run.2
    = stdout s
      ++ ("Fetching records " +:+ pretty offset +:+ " to " +:+ pretty (offset + limit) +:+ "...")
         :: fetch_log (http E (length (requests s)) r)
  ∧ disk run.2 = disk s ∧ dirs run.2 = dirs s
  ∧ sleeps run.2 = sleeps s ∧ ticks run.2 = ticks s.
Proof.
  intros r run. subst r run.
  unfold page_request, fetch_records, _make_request, try_except, session_get,
    get_self, print, raise.
  unfold_M. cbn [self requests stdout disk dirs sleeps ticks].
  destruct (http E _ _) as [data|e]; cbn [page_outcome fetch_log].
  - destruct (error data); cbn [fst snd self requests stdout disk dirs sleeps ticks].
    + by rewrite <- app_assoc.
    + unfold page_of. destruct (default [] (features data)) as [|f fs];
        cbn [fst snd ret self requests stdout disk dirs sleeps ticks];
        rewrite <- app_assoc; repeat split.
      unfold len. cbn [DataFrame_of_records rows]. by rewrite length_fmap.
  - destruct e; cbn [fst snd self requests stdout disk dirs sleeps ticks];
      by rewrite ?app_nil_r.
Qed.

(** An empty list of fields and an empty [order_by] behave as if the
    argument had been left out: same request, same output, same result. *)
Example fetch_records_empty_options E s limit offset w rg :
  fetch_records limit offset w (Some []) rg (Some "") E s
  = fetch_records limit offset w None rg None E s.
Proof. reflexivity. Qed.

(** X1. [fetch_records] returns a frame exactly when the transport returns
    a body that has no [error] key. An exception of the transport that is
    neither a [Timeout] nor a [RequestException] reaches the caller
    unchanged. *)
Theorem fetch_records_outcome E s limit offset w flds rg ob :
  let o := http E (length (requests s)) (page_request s limit offset w flds rg ob) in
  ((∃ df, (fetch_records limit offset w flds rg ob E s).1 = Ok df)
   ↔ ∃ b, o = Ok b ∧ error b = None)
  ∧ (∀ e, o = Raise e →
          match e with Timeout _ | RequestException _ => False | _ => True end →
          (fetch_records limit offset w flds rg ob E s).1 = Raise e).
Proof.
  intros o. subst o.
  destruct (fetch_records_full E s limit offset w flds rg ob) as (-> & _).
  split; [split|].
  - intros [df Hdf]. by apply page_outcome_Ok in Hdf as (b & ? & ? & _); eauto.
  - intros (b & -> & Herr). cbn [page_outcome]. rewrite Herr. eauto.
  - intros e -> He. by destruct e.
Qed.

Lemma fetch_records_outcome_witness :
  (fetch_records 100 0 "1=1" None false None (mock [Raise (KeyError "Location")]) (init 30)).1
  = Raise (KeyError "Location").
Proof.
  apply (proj2 (fetch_records_outcome (mock [Raise (KeyError "Location")]) (init 30)
                  100 0 "1=1" None false None) (KeyError "Location")).
  - reflexivity.
  - exact I.
Defined.

(** X2. A body without [error] and without features ([features] absent or
    the empty list) gives [pd.DataFrame()], after the line
    [No records found.]. *)
Theorem fetch_records_no_features E s limit offset w flds rg ob b :
  http E (length (requests s)) (page_request s limit offset w flds rg ob) = Ok b →
  error b = None →
  features b = None ∨ features b = Some [] →
  (fetch_records limit offset w flds rg ob E s).1 = Ok DataFrame_empty
  ∧ last (stdout (fetch_records limit offset w flds rg ob E s).2) = Some "No records found.".
Proof.
  intros Hb Herr Hfs.
  destruct (fetch_records_full E s limit offset w flds rg ob) as (-> & _ & _ & -> & _).
  rewrite Hb. cbn [page_outcome fetch_log]. rewrite Herr. unfold page_of.
  assert (default [] (features b) = []) as -> by (by destruct Hfs as [-> | ->]).
  split; [done|]. by rewrite last_app.
Qed.

Lemma fetch_records_no_features_witness :
  (fetch_records 100 0 "1=1" None false None (mock []) (init 30)).1 = Ok DataFrame_empty.
Proof.
  apply (fetch_records_no_features (mock []) (init 30) 100 0 "1=1" None false None
           (body_of [])).
  - reflexivity.
  - reflexivity.
  - right. reflexivity.
Defined.

(** X3. A body with features gives a frame with one row per feature, also
    for a feature without [attributes] or with an empty one. Its columns
    are exactly the keys that occur in the [attributes] of the features,
    each once; it carries no annotation, and the last line printed gives
    the number of rows. *)
Theorem fetch_records_rows E s limit offset w flds rg ob b f fs :
  http E (length (requests s)) (page_request s limit offset w flds rg ob) = Ok b →
  error b = None →
  features b = Some (f :: fs) →
  ∃ df, (fetch_records limit offset w flds rg ob E s).1 = Ok df
    ∧ len df = Z.of_nat (length (f :: fs))
    ∧ NoDup (columns df)
    ∧ (∀ c, c ∈ columns df
            ↔ ∃ x, x ∈ f :: fs ∧ c ∈ (default [] (attributes x)).*1)
    ∧ attrs df = ∅
    ∧ last (stdout (fetch_records limit offset w flds rg ob E s).2)
      = Some ("✓ Retrieved " +:+ pretty (len df) +:+ " raw records").
Proof.
  intros Hb Herr Hfs.
  destruct (fetch_records_full E s limit offset w flds rg ob) as (-> & _ & _ & -> & _).
  rewrite Hb. cbn [page_outcome fetch_log]. rewrite Herr. unfold page_of. rewrite Hfs.
  cbn [default id]. eexists. split; [done|].
  unfold DataFrame_of_records. cbn [rows columns attrs].
  assert (len {| columns := fold_left (λ acc (r : row), add_labels acc r.*1)
                              ((λ x, default [] (attributes x)) <$> f :: fs) [];
                 rows := (λ x, default [] (attributes x)) <$> f :: fs;
                 attrs := ∅ |} = Z.of_nat (length (f :: fs))) as Hlen.
  { unfold len. cbn [rows]. by rewrite length_fmap. }
  split; [done|].
  split; [apply records_labels_NoDup, NoDup_nil_2|]. split; [|split; [done|]].
  - intros c. rewrite records_labels_elem. split.
    + intros [?%elem_of_nil|(r & (x & -> & Hx)%list_elem_of_fmap & Hc)]; [done|]. eauto.
    + intros (x & Hx & Hc). right. eexists. split; [|done].
      apply list_elem_of_fmap. eauto.
  - rewrite Hlen. by rewrite last_app.
Qed.

Lemma fetch_records_rows_witness :
  ∃ df, (fetch_records 100 0 "1=1" None false None
           (mock [Ok (body_of (sample_features 0 3))]) (init 30)).1 = Ok df
    ∧ len df = 3
    ∧ NoDup (columns df).
Proof.
  destruct (fetch_records_rows (mock [Ok (body_of (sample_features 0 3))]) (init 30)
              100 0 "1=1" None false None (body_of (sample_features 0 3))
              {| attributes := Some (sample_row 0) |} (sample_features 1 2))
    as (df & Hdf & Hlen & Hnd & _).
  - reflexivity.
  - reflexivity.
  - reflexivity.
  - exists df. split; [exact Hdf|]. split; [exact Hlen|exact Hnd].
Defined.

(** X4. [fetch_records] only sends its request and prints: it leaves the
    client object, the disk and the directories as they are, takes no
    pause and does not read the clock. Its first line of output announces
    the range asked for. *)
Theorem fetch_records_footprint E s limit offset w flds rg ob :
  let s' := (fetch_records limit offset w flds rg ob E s).2 in
  self s' = self s ∧ disk s' = disk s ∧ dirs s' = dirs s
  ∧ sleeps s' = sleeps s ∧ ticks s' = ticks s
  ∧ ∃ lines,
      stdout s'
      = stdout s
        ++ ("Fetching records " +:+ pretty offset +:+ " to "
            +:+ pretty (offset + limit) +:+ "...") :: lines.
Proof.
  destruct (fetch_records_full E s limit offset w flds rg ob)
    as (_ & ? & _ & ? & ? & ? & ? & ?). eauto 10.
Qed.

(** ** The field metadata, continued *)

Lemma getitem_run d k E s :
  getitem d k E s
  = (match dict_get d k with Some v => Ok v | None => Raise (KeyError k) end, s).
Proof.
  induction d as [|[k' v] d IH]; cbn [getitem dict_get]; [done|].
  by case_bool_decide.
Qed.

Lemma print_field_run d E s :
  print_field d E s
  = match field_line d with
    | Some line => print line E s
    | None =>
        (Raise (KeyError (match dict_get d "name" with Some _ => "type" | None => "name" end)),
         s)
    end.
Proof.
  unfold print_field, field_line. unfold_M. rewrite getitem_run.
  destruct (dict_get d "name") as [n|]; [|done]. rewrite getitem_run.
  by destruct (dict_get d "type") as [t|].
Qed.

(** The printing loop touches nothing but the output. *)
Lemma for_each_print_field_frame l E : ∀ s,
  let s' := (for_each l print_field E s).2 in
  self s' = self s ∧ requests s' = requests s ∧ disk s' = disk s ∧ dirs s' = dirs s
  ∧ sleeps s' = sleeps s ∧ ticks s' = ticks s.
Proof.
  induction l as [|d l IH]; intros s; cbn [for_each]; [done|].
  unfold_M. rewrite print_field_run.
  destruct (field_line d) as [line|]; [|done].
  cbn [print]. destruct (IH (print line E s).2) as (? & ? & ? & ? & ? & ?).
  cbn [print snd] in *. by destruct (for_each l print_field E _) as [[[]|e] s2].
Qed.

Lemma for_each_print_field_ok l E : ∀ s lines,
  mapM field_line l = Some lines →
  (for_each l print_field E s).1 = Ok tt
  ∧ stdout (for_each l print_field E s).2 = stdout s ++ lines.
Proof.
  induction l as [|d l IH]; intros s lines Hl.
  - injection Hl as <-. cbn. by rewrite app_nil_r.
  - cbn [mapM] in Hl. destruct (field_line d) as [line|] eqn:Hd; [|done].
    cbn in Hl. destruct (mapM field_line l) as [rest|] eqn:Hrest; [|done].
    injection Hl as <-. cbn [for_each]. unfold_M. rewrite print_field_run, Hd. cbn [print].
    destruct (IH (print line E s).2 rest eq_refl) as [H1 H2]. cbn [print snd] in H1, H2.
    destruct (for_each l print_field E _) as [[[]|e] s2]; [|done].
    cbn [fst snd] in *. split; [done|]. rewrite H2. cbn [stdout]. by rewrite <- app_assoc.
Qed.

Lemma for_each_print_field_fails l E : ∀ s,
  mapM field_line l = None →
  ∃ k, (for_each l print_field E s).1 = Raise (KeyError k) ∧ (k = "name" ∨ k = "type").
Proof.
  induction l as [|d l IH]; intros s Hl; [done|].
  cbn [for_each]. unfold_M. rewrite print_field_run.
  cbn [mapM] in Hl. destruct (field_line d) as [line|] eqn:Hd.
  2:{ eexists. split; [done|]. destruct (dict_get d "name"); auto. }
  cbn in Hl. destruct (mapM field_line l) as [rest|] eqn:Hrest; [done|].
  cbn [print]. destruct (IH (print line E s).2 eq_refl) as [k Hk]. cbn [print snd] in Hk.
  destruct (for_each l print_field E _) as [[[]|e] s2]; [by destruct Hk|]. by exists k.
Qed.

Lemma comprehension_names l E s :
  comprehension l (λ f, getitem f "name") E s
  = (match mapM (λ d, dict_get d "name") l with
     | Some names => Ok names
     | None => Raise (KeyError "name")
     end, s).
Proof.
  induction l as [|d l IH]; [done|].
  cbn [comprehension mapM]. unfold_M. rewrite getitem_run.
  destruct (dict_get d "name") as [n|]; cbn; [|done]. unfold_M. rewrite IH.
  by destruct (mapM _ l).
Qed.

Lemma field_line_names l lines :
  mapM field_line l = Some lines → is_Some (mapM (λ d, dict_get d "name") l).
Proof.
  revert lines. induction l as [|d l IH]; intros lines Hl; [by eexists|].
  cbn [mapM] in *.
  destruct (field_line d) as [line|] eqn:Hd; cbn in Hl; [|done].
  destruct (mapM field_line l) as [rest|]; cbn in Hl; [|done].
  destruct (IH rest eq_refl) as [names ->].
  unfold field_line in Hd. destruct (dict_get d "name") as [n|]; cbn in Hd; [|done].
  by eexists.
Qed.

(** The [try] block, step by step. *)
Lemma get_field_info_try_unfold E s :
  let s0 := (session_get (replace BASE_URL "/query" "") {[ "f" := PStr "json" ]}
               (timeout (self s)) E s).2 in
  get_field_info_try E s =
  match http E (length (requests s)) (metadata_request s) with
  | Raise e => (Raise e, s0)
  | Ok data =>
      let fs := default [] (fields data) in
      let s1 := (print (nl +:+ "=== Available fields: " +:+ pretty (length fs) +:+ " ===")
                   E s0).2 in
      match for_each fs print_field E s1 with
      | (Raise e, s2) => (Raise e, s2)
      | (Ok _, s2) =>
          match mapM (λ d, dict_get d "name") fs with
          | None => (Raise (KeyError "name"), s2)
          | Some names => (Ok fs, (set_field_names names E s2).2)
          end
      end
  end.
Proof.
  intros s0. subst s0.
  unfold get_field_info_try, metadata_request, session_get, get_self.
  change (λ field : row, getitem field "name" ≫= _) with print_field.
  unfold mbind at 1 2 3 4 5 6, M_bind, bind. cbn [self fst snd].
  destruct (http E _ _) as [data|e]; [|done]. cbn [print snd].
  destruct (for_each _ print_field E _) as [[[]|e] s2]; [|done].
  rewrite comprehension_names. by destruct (mapM _ _).
Qed.

(** X5. When the metadata request succeeds and every descriptor it lists
    has a [name] and a [type], [get_field_info] returns the descriptors as
    received, records their names in order in [_field_names] and prints a
    header with their number followed by one line per descriptor. It sends
    that one request, to the URL without [/query] with the only parameter
    [f=json], and touches nothing else. A body without [fields] counts as
    an empty listing. *)
Theorem get_field_info_lists_fields E s b lines :
  http E (length (requests s)) (metadata_request s) = Ok b →
  mapM field_line (default [] (fields b)) = Some lines →
  let s' := (get_field_info E s).2 in
  (get_field_info E s).1 = Ok (default [] (fields b))
  ∧ _field_names (self s') = mapM (λ d, dict_get d "name") (default [] (fields b))
  ∧ timeout (self s') = timeout (self s)
  ∧ requests s' = requests s ++ [metadata_request s]
  ∧ stdout s'
    = stdout s
      ++ (nl +:+ "=== Available fields: "
          +:+ pretty (length (default [] (fields b))) +:+ " ===") :: lines
  ∧ disk s' = disk s ∧ dirs s' = dirs s ∧ sleeps s' = sleeps s ∧ ticks s' = ticks s.
Proof.
  intros Hb Hlines s'. subst s'.
  unfold get_field_info, try_except. rewrite get_field_info_try_unfold, Hb. cbn zeta.
  set (fs := default [] (fields b)) in *.
  match goal with |- context [for_each fs print_field E ?st] => set (s1 := st) end.
  pose proof (for_each_print_field_ok fs E s1 lines Hlines) as [Hok Hout].
  pose proof (for_each_print_field_frame fs E s1) as (Hf1 & Hf2 & Hf3 & Hf4 & Hf5 & Hf6).
  destruct (for_each fs print_field E s1) as [[[]|e] s2]; [|done]. cbn [fst snd] in *.
  destruct (field_line_names fs lines Hlines) as [names Hnames]. rewrite Hnames.
  cbn [set_field_names fst snd self _field_names timeout requests stdout disk dirs
       sleeps ticks fmap option_fmap option_map].
  rewrite Hf1, Hf2, Hf3, Hf4, Hf5, Hf6, Hout. subst s1.
  cbn [print session_get snd self requests stdout disk dirs sleeps ticks timeout].
  by rewrite <- app_assoc.
Qed.

Lemma get_field_info_lists_fields_witness :
  let E := mock [Ok {| error := None; features := None;
                       fields := Some [ [("name", VStr "Id"); ("type", VStr "esriFieldTypeOID")];
                                        [("name", VStr "Lat"); ("type", VStr "esriFieldTypeDouble")] ] |}] in
  _field_names (self (get_field_info E (init 30)).2) = Some [VStr "Id"; VStr "Lat"]
  ∧ length (stdout (get_field_info E (init 30)).2) = 3%nat.
Proof.
  intros E.
  destruct (get_field_info_lists_fields E (init 30)
              {| error := None; features := None;
                 fields := Some [ [("name", VStr "Id"); ("type", VStr "esriFieldTypeOID")];
                                  [("name", VStr "Lat"); ("type", VStr "esriFieldTypeDouble")] ] |}
              [ "  - Id (esriFieldTypeOID)"; "  - Lat (esriFieldTypeDouble)" ])
    as (_ & Hnames & _ & _ & Hout & _).
  - reflexivity.
  - reflexivity.
  - split; [exact Hnames|]. rewrite Hout. reflexivity.
Defined.

(** X6. One descriptor without [name] or without [type] discards the whole
    listing: [get_field_info] returns the empty list, reports the missing
    key and leaves the client object, [_field_names] included, as it
    was. *)
Theorem get_field_info_malformed_descriptor E s b :
  http E (length (requests s)) (metadata_request s) = Ok b →
  mapM field_line (default [] (fields b)) = None →
  let s' := (get_field_info E s).2 in
  (get_field_info E s).1 = Ok []
  ∧ self s' = self s
  ∧ ∃ k, (k = "name" ∨ k = "type")
         ∧ last (stdout s') = Some ("Could not fetch field info: '" +:+ k +:+ "'").
Proof.
  intros Hb Hnone s'. subst s'.
  unfold get_field_info, try_except. rewrite get_field_info_try_unfold, Hb. cbn zeta.
  set (fs := default [] (fields b)) in *.
  match goal with |- context [for_each fs print_field E ?st] => set (s1 := st) end.
  destruct (for_each_print_field_fails fs E s1 Hnone) as (k & Hk & Hkey).
  pose proof (for_each_print_field_frame fs E s1) as (Hf1 & _).
  destruct (for_each fs print_field E s1) as [[[]|e] s2]; [done|]. cbn [fst snd] in *.
  injection Hk as ->. unfold_M. cbn [print ret fst snd self stdout str_exn].
  split; [done|]. split; [by rewrite Hf1|].
  exists k. split; [done|]. by rewrite last_app.
Qed.

Lemma get_field_info_malformed_descriptor_witness :
  let E := mock [Ok {| error := None; features := None;
                       fields := Some [ [("name", VStr "Id"); ("type", VStr "esriFieldTypeOID")];
                                        [("name", VStr "Lat")] ] |}] in
  (get_field_info E (init 30)).1 = Ok []
  ∧ self (get_field_info E (init 30)).2 = self (init 30).
Proof.
  intros E.
  destruct (get_field_info_malformed_descriptor E (init 30)
              {| error := None; features := None;
                 fields := Some [ [("name", VStr "Id"); ("type", VStr "esriFieldTypeOID")];
                                  [("name", VStr "Lat")] ] |})
    as (Hres & Hself & _).
  - reflexivity.
  - reflexivity.
  - split; [exact Hres|exact Hself].
Defined.

(** X7. Whatever the service answers, [get_field_info] sends exactly one
    request, the one to the resource without [/query]; it keeps the
    timeout, the disk, the directories and the clock as they are and takes
    no pause. Afterwards either the client object is unchanged, or
    [_field_names] holds the names of exactly the descriptors returned. *)
Theorem get_field_info_footprint E s :
  let s' := (get_field_info E s).2 in
  requests s' = requests s ++ [metadata_request s]
  ∧ timeout (self s') = timeout (self s)
  ∧ disk s' = disk s ∧ dirs s' = dirs s ∧ sleeps s' = sleeps s ∧ ticks s' = ticks s
  ∧ (self s' = self s
     ∨ ∃ fs, (get_field_info E s).1 = Ok fs
             ∧ _field_names (self s') = mapM (λ d, dict_get d "name") fs).
Proof.
  intros s'. subst s'.
  unfold get_field_info, try_except. rewrite get_field_info_try_unfold.
  destruct (http E _ _) as [b|e].
  2:{ unfold_M.
      cbn [print ret session_get fst snd self requests stdout disk dirs sleeps ticks timeout].
      repeat split. by left. }
  cbn zeta. set (fs := default [] (fields b)) in *.
  match goal with |- context [for_each fs print_field E ?st] => set (s1 := st) end.
  pose proof (for_each_print_field_frame fs E s1) as (Hf1 & Hf2 & Hf3 & Hf4 & Hf5 & Hf6).
  destruct (for_each fs print_field E s1) as [[[]|e] s2]; cbn [fst snd] in *.
  - destruct (mapM _ fs) as [names|] eqn:Hnames; unfold_M;
      cbn [set_field_names print ret fst snd self _field_names timeout requests stdout
           disk dirs sleeps ticks];
      rewrite ?Hf1, ?Hf2, ?Hf3, ?Hf4, ?Hf5, ?Hf6; subst s1;
      cbn [print session_get snd self requests stdout disk dirs sleeps ticks timeout].
    + repeat split. right. exists fs. by rewrite Hnames.
    + repeat split. by left.
  - unfold_M. cbn [print ret fst snd self requests stdout disk dirs sleeps ticks].
    rewrite ?Hf1, ?Hf2, ?Hf3, ?Hf4, ?Hf5, ?Hf6; subst s1;
      cbn [print session_get snd self requests stdout disk dirs sleeps ticks timeout].
    repeat split. by left.
Qed.

(** ** Pagination, continued *)

(** The whole effect of saving a batch. *)
Lemma save_batch_full sr od bn p E s :
  let run := save_batch sr od bn p E s in
  self run.2 = self s ∧ requests run.2 = requests s ∧ dirs run.2 = dirs s
  ∧ sleeps run.2 = sleeps s ∧ ticks run.2 = ticks s
  ∧ ((run.1 = Ok tt
      ∧ disk run.2 = if sr then <[batch_file od bn := csv_of p]> (disk s) else disk s)
     ∨ (sr = true ∧ open_ok E (batch_file od bn) = false
        ∧ run.1 = Raise (OSError (batch_file od bn)) ∧ run.2 = s)).
Proof.
  unfold save_batch, to_csv, write_file, print, batch_file, csv_of. unfold_M.
  destruct sr; [|cbn; by auto 10].
  destruct (open_ok E _) eqn:Hopen; cbn; auto 10.
Qed.

Lemma loop_effects E bs mr w sr od fuel : ∀ all_data offset bn s,
  let run := fetch_all_loop fuel bs mr w sr od all_data offset bn E s in
  ∃ offs,
    requests run.2
      = requests s ++ ((λ o, page_request s bs o w None false None) <$> offs)
    ∧ (length offs ≤ fuel)%nat
    ∧ (fuel ≠ 0%nat → head offs = Some offset)
    ∧ (∀ i o o', offs !! i = Some o → offs !! S i = Some o' → o < o')
    ∧ self run.2 = self s ∧ ticks run.2 = ticks s ∧ dirs run.2 = dirs s
    ∧ (sleeps run.2 + match run.1 with Ok None => 0 | _ => 1 end
       = sleeps s + length offs)%nat
    ∧ (sr = false → disk run.2 = disk s)
    ∧ (∀ path, (∀ i, (bn ≤ i)%nat → path ≠ batch_file od i) →
               disk run.2 !! path = disk s !! path).
Proof.
  induction fuel as [|fuel IH]; intros all_data offset bn s run; subst run.
  { exists []. cbn. rewrite app_nil_r. repeat split; try done; lia. }
  rewrite loop_S.
  destruct (fetch_records_full E s bs offset w None false None)
    as (Hout & Hs1 & Hr1 & _ & Hd1 & Hdr1 & Hsl1 & Ht1).
  destruct (fetch_records bs offset w None false None E s) as [o1 s1].
  cbn [fst snd] in *.
  assert (∀ i o o', [offset] !! i = Some o → [offset] !! S i = Some o' → o < o')
    as Hone by (by intros [|i] ? ?).
  destruct o1 as [p|e].
  2:{ exists [offset]. cbn [fst snd length fmap list_fmap head].
      rewrite Hr1, Hs1, Ht1, Hdr1, Hsl1, Hd1. repeat split; try done; lia. }
  destruct (empty p) eqn:Hemp.
  { exists [offset]. cbn [fst snd length fmap list_fmap head].
    rewrite Hr1, Hs1, Ht1, Hdr1, Hsl1, Hd1. repeat split; try done; lia. }
  destruct (save_batch_full sr od bn p E s1) as (Hs2 & Hr2 & Hdr2 & Hsl2 & Ht2 & Hsave).
  assert (sr = false → disk (save_batch sr od bn p E s1).2 = disk s) as Hd2.
  { intros ->. destruct Hsave as [[_ ->]|(? & _)]; done. }
  assert (∀ path, (∀ i, (bn ≤ i)%nat → path ≠ batch_file od i) →
                  disk (save_batch sr od bn p E s1).2 !! path = disk s !! path) as Hd2'.
  { intros path Hpath. destruct Hsave as [[_ ->]|(_ & _ & _ & ->)]; [|by rewrite Hd1].
    destruct sr; [|by rewrite Hd1].
    rewrite lookup_insert_ne by (symmetry; by apply Hpath). by rewrite Hd1. }
  destruct (save_batch sr od bn p E s1) as [[[]|e] s2]; cbn [fst snd] in *.
  2:{ exists [offset]. cbn [fst snd length fmap list_fmap head].
      rewrite Hr2, Hr1, Hs2, Hs1, Ht2, Ht1, Hdr2, Hdr1, Hsl2, Hsl1.
      repeat split; try done; lia. }
  destruct (cap_reached mr (offset + len p)).
  { exists [offset]. cbn [fst snd length fmap list_fmap head print requests self ticks dirs
                          sleeps disk].
    rewrite Hr2, Hr1, Hs2, Hs1, Ht2, Ht1, Hdr2, Hdr1, Hsl2, Hsl1.
    repeat split; try done; lia. }
  destruct (len p <? bs).
  { exists [offset]. cbn [fst snd length fmap list_fmap head].
    rewrite Hr2, Hr1, Hs2, Hs1, Ht2, Ht1, Hdr2, Hdr1, Hsl2, Hsl1.
    repeat split; try done; lia. }
  set (s3 := (sleep_half E s2).2).
  assert (requests s3 = requests s2 ∧ self s3 = self s2 ∧ ticks s3 = ticks s2
          ∧ dirs s3 = dirs s2 ∧ sleeps s3 = S (sleeps s2) ∧ disk s3 = disk s2)
    as (Hr3 & Hs3 & Ht3 & Hdr3 & Hsl3 & Hd3) by done.
  clearbody s3.
  destruct (IH (all_data ++ [p]) (offset + len p) (S bn) s3)
    as (offs & Hreq & Hlen & Hhead & Hinc & Hself & Hticks & Hdirs & Hsleeps & Hdisk & Hdisk').
  exists (offset :: offs).
  rewrite Hreq, Hself, Hticks, Hdirs, Hr3, Hs3, Ht3, Hdr3, Hr2, Hr1, Hs2, Hs1, Ht2, Ht1,
    Hdr2, Hdr1.
  unfold page_request. rewrite Hs3, Hs2, Hs1, <- app_assoc. cbn [length head].
  split; [done|]. split; [lia|]. split; [done|]. split.
  { intros [|i] o o'; cbn.
    - intros [= <-] Ho'. destruct offs as [|o1 offs]; [done|].
      cbn in Ho'. injection Ho' as <-.
      assert (fuel ≠ 0%nat) as Hfuel by (intros ->; cbn in Hlen; lia).
      apply Hhead in Hfuel. cbn in Hfuel. injection Hfuel as ->.
      apply empty_false_len in Hemp. lia.
    - apply Hinc. }
  split; [done|]. split; [done|]. split; [done|].
  split; [rewrite Hsl3, Hsl2, Hsl1 in Hsleeps; lia|].
  split.
  - intros Hsr. rewrite Hdisk, Hd3 by done. by apply Hd2.
  - intros path Hpath. rewrite Hdisk', Hd3 by (intros i Hi; apply Hpath; lia).
    by apply Hd2'.
Qed.

(** *** The names of the batch files *)

Lemma pretty_N_go_head x : ∀ s,
  (0 < x)%N → ∃ c s', pretty_N_go x s = String c s' ∧ c ≠ "0"%char.
Proof.
  induction (N.lt_wf_0 x) as [x _ IH]; intros s Hx.
  rewrite pretty_N_go_step by done.
  destruct (decide (x `div` 10 = 0)%N) as [Hdiv|Hdiv].
  - rewrite Hdiv, pretty_N_go_0. eexists _, _. split; [done|].
    apply N.div_small_iff in Hdiv; [|done]. rewrite N.mod_small by done.
    unfold pretty_N_char. by repeat case_match; try lia.
  - apply IH; [apply N.div_lt; lia|by apply N.neq_0_lt_0].
Qed.

Lemma pretty_nat_head n :
  (n = 0%nat ∧ pretty n = "0") ∨ ∃ c s', pretty n = String c s' ∧ c ≠ "0"%char.
Proof.
  unfold pretty, pretty_nat, pretty, pretty_N.
  case_decide as Hn; [left; split; [lia|done]|right].
  apply pretty_N_go_head. lia.
Qed.

Lemma zeros_S a : zeros (S a) = String "0" (zeros a).
Proof. unfold zeros. by destruct a. Qed.

Lemma zeros_add a d : zeros (a + d) = zeros a +:+ zeros d.
Proof.
  induction a as [|a IH]; [done|].
  cbn [Nat.add]. by rewrite !zeros_S, IH.
Qed.

Lemma zeros_length a : String.length (zeros a) = a.
Proof. induction a as [|a IH]; [done|]. rewrite zeros_S. cbn. by rewrite IH. Qed.

Lemma pad4_zeros n : pad4 n = zeros (4 - String.length (pretty n)) +:+ pretty n.
Proof. done. Qed.

(** Padding with zeros on the left confuses no two numbers. *)
Lemma zeros_pretty_inj a b (n m : nat) :
  (a + String.length (pretty n) = b + String.length (pretty m))%nat →
  zeros a +:+ pretty n = zeros b +:+ pretty m → n = m.
Proof.
  assert (∀ a d (n m : nat), (0 < d)%nat →
            zeros a +:+ pretty n = zeros (a + d) +:+ pretty m → False) as Hlt.
  { clear. intros a d n m Hd Heq. rewrite zeros_add in Heq.
    assert (pretty n = zeros d +:+ pretty m) as Hn.
    { revert Heq. generalize (zeros a). intros z. induction z as [|c z IH]; [done|].
      rewrite !str_app_cons. intros [= ?]. auto. }
    destruct d as [|d]; [lia|]. rewrite zeros_S, str_app_cons in Hn.
    destruct (pretty_nat_head n) as [[_ H0]|(c & s' & Hc & Hne)].
    - rewrite H0 in Hn. injection Hn as Hn. apply (f_equal String.length) in Hn.
      rewrite str_length_app in Hn. cbn in Hn.
      destruct (pretty_nat_head m) as [[_ Hm]|(c' & s'' & Hm & _)];
        rewrite Hm in Hn; cbn in Hn; lia.
    - rewrite Hc in Hn. by injection Hn as -> _. }
  intros Hlen Heq.
  destruct (Nat.lt_trichotomy a b) as [Hab|[->|Hab]].
  - destruct (Hlt a (b - a)%nat n m); [lia|]. by replace (a + (b - a))%nat with b by lia.
  - apply (inj (String.append _)) in Heq. by apply (inj pretty).
  - destruct (Hlt b (a - b)%nat m n); [lia|]. by replace (b + (a - b))%nat with a by lia.
Qed.

Lemma pad4_inj n m : pad4 n = pad4 m → n = m.
Proof.
  intros Heq. rewrite !pad4_zeros in Heq.
  apply (zeros_pretty_inj _ _ _ _) in Heq; [done|].
  apply (f_equal String.length) in Heq. by rewrite !str_length_app, !zeros_length in Heq.
Qed.

Lemma path_join_inj a b b' :
  prefix_of "/" b = false → prefix_of "/" b' = false →
  path_join a b = path_join a b' → b = b'.
Proof.
  unfold path_join. intros -> ->.
  destruct (bool_decide (a = "") || ends_with_slash a); intros Heq.
  - by apply (inj (String.append _)) in Heq.
  - by apply (inj (String.append _)), (inj (String.append _)) in Heq.
Qed.

Lemma batch_file_inj od i j : batch_file od i = batch_file od j → i = j.
Proof.
  unfold batch_file. intros Heq. apply path_join_inj in Heq; [|done..].
  apply (inj (String.append _)), str_app_inv_tail in Heq. by apply pad4_inj.
Qed.

(** *** What a run that returns has done *)

Lemma offsets_from_length o pages : length (offsets_from o pages) = length pages.
Proof. revert o. induction pages as [|p ps IH]; intros o; cbn; [done|]. by rewrite IH. Qed.

Lemma loop_trace E bs mr w sr od fuel : ∀ all_data offset bn s pages s',
  fetch_all_loop fuel bs mr w sr od all_data offset bn E s = (Ok (Some pages), s') →
  ∃ new, pages = all_data ++ new
    ∧ (∀ i p, new !! i = Some p →
         ∃ b, http E (length (requests s) + i)
                (page_request s bs (offset + total (take i new)) w None false None) = Ok b
              ∧ error b = None ∧ p = page_of b ∧ empty p = false)
    ∧ (requests s'
       = requests s
         ++ ((λ o, page_request s bs o w None false None) <$> offsets_from offset new)
       ∨ (requests s'
          = requests s
            ++ ((λ o, page_request s bs o w None false None)
                <$> (offsets_from offset new ++ [offset + total new]))
          ∧ ∃ b, http E (length (requests s) + length new)
                   (page_request s bs (offset + total new) w None false None) = Ok b
                 ∧ error b = None ∧ empty (page_of b) = true))
    ∧ (sr = true → ∀ i p, new !! i = Some p →
         disk s' !! batch_file od (bn + i) = Some (csv_of p)).
Proof.
  induction fuel as [|fuel IH]; intros all_data offset bn s pages s' Hrun; [done|].
  rewrite loop_S in Hrun.
  destruct (fetch_records_full E s bs offset w None false None)
    as (Hout & Hs1 & Hr1 & _ & Hd1 & _).
  destruct (fetch_records bs offset w None false None E s) as [o1 s1].
  cbn [fst snd] in *. destruct o1 as [p|e]; [|done].
  symmetry in Hout. apply page_outcome_Ok in Hout as (b & Hb & Herr & ->).
  destruct (empty (page_of b)) eqn:Hemp.
  { injection Hrun as <- <-. exists []. rewrite app_nil_r. split; [done|].
    split; [by intros i p|]. split; [|by intros _ i p].
    right. cbn [offsets_from app total foldr length]. rewrite Z.add_0_r, Nat.add_0_r.
    split; [done|]. by exists b. }
  destruct (save_batch_full sr od bn (page_of b) E s1) as (Hs2 & Hr2 & _ & _ & _ & Hsave).
  destruct (save_batch sr od bn (page_of b) E s1) as [[[]|e] s2]; [|done].
  cbn [fst snd] in *.
  destruct Hsave as [[_ Hd2]|(_ & _ & [=] & _)].
  assert (sr = true → disk s2 !! batch_file od bn = Some (csv_of (page_of b))) as Hsaved.
  { intros ->. by rewrite Hd2, lookup_insert_eq. }
  assert (∀ rest, ∃ b0,
            http E (length (requests s) + 0)
              (page_request s bs (offset + total (take 0 (page_of b :: rest))) w None false
                 None) = Ok b0
            ∧ error b0 = None ∧ page_of b = page_of b0 ∧ empty (page_of b) = false)
    as Hfirst.
  { intros rest. exists b. rewrite Nat.add_0_r. cbn [take total foldr].
    by rewrite Z.add_0_r. }
  destruct (cap_reached mr (offset + len (page_of b))).
  { injection Hrun as <- <-. exists [page_of b]. split; [done|]. split; [|split].
    - intros [|i] p'; [|done]. intros [= <-]. apply Hfirst.
    - left. cbn [print snd requests offsets_from fmap list_fmap]. by rewrite Hr2, Hr1.
    - intros Hsr [|i] p'; [|done]. intros [= <-]. rewrite Nat.add_0_r.
      cbn [print snd disk]. by apply Hsaved. }
  destruct (len (page_of b) <? bs).
  { injection Hrun as <- <-. exists [page_of b]. split; [done|]. split; [|split].
    - intros [|i] p'; [|done]. intros [= <-]. apply Hfirst.
    - left. cbn [offsets_from fmap list_fmap]. by rewrite Hr2, Hr1.
    - intros Hsr [|i] p'; [|done]. intros [= <-]. rewrite Nat.add_0_r. by apply Hsaved. }
  set (s3 := (sleep_half E s2).2) in Hrun.
  assert (requests s3 = requests s2 ∧ self s3 = self s2 ∧ disk s3 = disk s2)
    as (Hr3 & Hs3 & Hd3) by done.
  clearbody s3.
  pose proof (loop_effects E bs mr w sr od fuel (all_data ++ [page_of b])
                (offset + len (page_of b)) (S bn) s3)
    as (_ & _ & _ & _ & _ & _ & _ & _ & _ & _ & Hkeep).
  rewrite Hrun in Hkeep. cbn [snd] in Hkeep.
  apply IH in Hrun as (new & -> & Hserved & Hreqs & Hfiles).
  rewrite Hr3, Hr2, Hr1, length_app in Hserved, Hreqs. cbn [length] in Hserved, Hreqs.
  unfold page_request in Hserved, Hreqs.
  rewrite Hs3, Hs2, Hs1 in Hserved, Hreqs. fold (page_request s bs) in Hserved, Hreqs.
  exists (page_of b :: new). rewrite <- app_assoc. split; [done|]. split; [|split].
  - intros [|i] p'.
    + intros [= <-]. apply Hfirst.
    + cbn [lookup list_lookup]. intros Hp'. destruct (Hserved i p' Hp') as (b' & Hb' & ?).
      exists b'. split; [|done]. cbn [take]. rewrite total_cons.
      replace (length (requests s) + S i)%nat with (length (requests s) + 1 + i)%nat by lia.
      by rewrite Z.add_assoc.
  - cbn [offsets_from length]. rewrite total_cons, Z.add_assoc.
    replace (length (requests s) + S (length new))%nat
      with (length (requests s) + 1 + length new)%nat by lia.
    rewrite <- !app_assoc in Hreqs. cbn [app fmap list_fmap] in *. done.
  - intros Hsr [|i] p'.
    + intros [= <-]. rewrite Nat.add_0_r. rewrite Hkeep, Hd3; [by apply Hsaved|].
      intros j Hj Heq. apply batch_file_inj in Heq. lia.
    + cbn [lookup list_lookup]. intros Hp'.
      replace (bn + S i)%nat with (S bn + i)%nat by lia. by apply Hfiles.
Qed.

(** The whole effect of the lines before the loop. *)
Lemma announce_full bs sr od E s :
  let run := announce bs sr od E s in
  self run.2 = self s ∧ requests run.2 = requests s ∧ disk run.2 = disk s
  ∧ sleeps run.2 = sleeps s ∧ ticks run.2 = ticks s
  ∧ ((run.1 = Ok tt ∧ dirs run.2 = if sr then dirs s ++ [od] else dirs s)
     ∨ (sr = true ∧ makedirs_ok E od = false ∧ run.1 = Raise (OSError od) ∧ run.2 = s)).
Proof.
  unfold announce, makedirs, print. unfold_M.
  destruct sr; [|cbn [fst snd self requests disk sleeps ticks dirs]; by auto 10].
  destruct (makedirs_ok E od);
    cbn [fst snd self requests disk sleeps ticks dirs]; auto 10.
Qed.

(** The effect of a whole run on everything but its output, whatever its
    outcome. *)
Lemma fetch_all_records_effects E s fuel bs mr w sr od :
  let run := fetch_all_records fuel bs mr w sr od E s in
  ∃ offs,
    requests run.2
    = requests s ++ ((λ o, page_request s bs o w None false None) <$> offs)
    ∧ (length offs ≤ fuel)%nat
    ∧ (offs ≠ [] → head offs = Some 0)
    ∧ (∀ i o o', offs !! i = Some o → offs !! S i = Some o' → o < o')
    ∧ self run.2 = self s
    ∧ sleeps run.2
      = (sleeps s + (length offs - match run.1 with Ok None => 0 | _ => 1 end))%nat
    ∧ (sr = false → disk run.2 = disk s ∧ dirs run.2 = dirs s)
    ∧ (∀ path, (∀ i, path ≠ batch_file od i) → disk run.2 !! path = disk s !! path)
    ∧ (dirs run.2 = dirs s ∨ dirs run.2 = dirs s ++ [od])
    ∧ ticks run.2
      = (ticks s + match run.1 with
                   | Ok (Some df) => if decide (rows df = []) then 0 else 1
                   | _ => 0
                   end)%nat.
Proof.
  intros run. subst run. rewrite fetch_all_records_unfold.
  destruct (announce_full bs sr od E s) as (Hs0 & Hr0 & Hd0 & Hsl0 & Ht0 & Hann).
  destruct (announce bs sr od E s) as [[[]|e0] s0]; cbn [fst snd] in *.
  2:{ destruct Hann as [[[=] _]|(_ & _ & _ & ->)].
      exists []. cbn [fmap list_fmap length]. rewrite app_nil_r.
      split_and!; try done; try lia; try (by left). }
  assert (dirs s0 = dirs s ∨ dirs s0 = dirs s ++ [od]) as Hdirs0.
  { destruct Hann as [[_ ->]|(_ & _ & [=] & _)]. destruct sr; auto. }
  assert (sr = false → dirs s0 = dirs s) as Hdirs0'.
  { intros ->. by destruct Hann as [[_ ->]|(? & _)]. }
  destruct (loop_effects E bs mr w sr od fuel [] 0 0%nat s0)
    as (offs & Hreq & Hlen & Hhead & Hinc & Hself & Hticks & Hdirs & Hsleeps & Hdisk & Hdisk').
  exists offs.
  assert (offs ≠ [] → head offs = Some 0) as Hhead'.
  { intros Hne. apply Hhead. intros ->. destruct offs; [done|cbn in Hlen; lia]. }
  assert (length offs ≠ 0%nat
          ∨ (fetch_all_loop fuel bs mr w sr od [] 0 0%nat E s0).1 = Ok None) as Hpos.
  { destruct fuel; [by right|left].
    destruct offs; [|done]. by specialize (Hhead ltac:(done)). }
  unfold page_request in *. rewrite Hs0, Hr0 in Hreq. rewrite Hs0 in Hself.
  rewrite Hsl0 in Hsleeps. rewrite Hd0 in Hdisk. rewrite Ht0 in Hticks.
  assert (∀ path, (∀ i, path ≠ batch_file od i) →
            disk (fetch_all_loop fuel bs mr w sr od [] 0 0%nat E s0).2 !! path
            = disk s !! path) as Hdisk''.
  { intros path Hpath. rewrite Hdisk' by (intros i _; apply Hpath). by rewrite Hd0. }
  destruct (fetch_all_loop fuel bs mr w sr od [] 0 0%nat E s0) as [[[[|p ps]|]|e] s1] eqn:Hloop;
    cbn [fst snd] in *.
  all: try (cbn zeta; cbn [datetime_now print snd requests self sleeps disk dirs ticks]).
  all: rewrite Hreq, Hself, Hdirs, Hticks.
  2:{ assert (rows (combined (p :: ps) (now E (ticks s))) ≠ []) as Hrows.
      { apply (loop_trace E bs mr w sr od fuel [] 0 0%nat s0) in Hloop
          as (new & Hnew & Hserved & _). cbn [app] in Hnew. subst new.
        destruct (Hserved 0%nat p eq_refl) as (b & _ & _ & _ & Hemp).
        apply empty_false_iff in Hemp as [Hrows _].
        cbn [combined set_attr rows concat fmap list_fmap mjoin list_join].
        by destruct (rows p). }
      rewrite decide_False by done.
      split_and!; try done; try lia; try (destruct Hpos; [lia|done]).
      intros ->. by rewrite Hdisk, Hdirs0'. }
  1: cbn [DataFrame_empty rows]; rewrite decide_True by done.
  all: split_and!; try done; try lia; try (destruct Hpos; [lia|done]).
  all: intros ->; by rewrite Hdisk, Hdirs0'.
Qed.

(** X8. Whatever its outcome, a run of [fetch_all_records] sends only
    requests of [fetch_records] for [batch_size] rows, with the caller's
    where clause, all fields, no geometry and no order. Their offsets start
    at 0 and strictly increase, there are at most [fuel] of them, and the
    client object is left as it was. *)
Theorem fetch_all_records_requests E s fuel bs mr w sr od :
  let run := fetch_all_records fuel bs mr w sr od E s in
  ∃ offs,
    requests run.2
    = requests s ++ ((λ o, page_request s bs o w None false None) <$> offs)
    ∧ (length offs ≤ fuel)%nat
    ∧ (offs ≠ [] → head offs = Some 0)
    ∧ (∀ i o o', offs !! i = Some o → offs !! S i = Some o' → o < o')
    ∧ self run.2 = self s.
Proof.
  intros run.
  destruct (fetch_all_records_effects E s fuel bs mr w sr od)
    as (offs & Hreq & Hlen & Hhead & Hinc & Hself & _).
  by exists offs.
Qed.

(** X9. A run that ends (by a result or by an exception) has paused once
    between two consecutive requests and not after the last one: the
    number of half-second sleeps is the number of requests less one, and
    none when nothing was requested. *)
Theorem fetch_all_records_pauses E s fuel bs mr w sr od :
  let run := fetch_all_records fuel bs mr w sr od E s in
  run.1 ≠ Ok None →
  sleeps run.2
  = (sleeps s + (length (requests run.2) - length (requests s) - 1))%nat.
Proof.
  intros run Hend.
  destruct (fetch_all_records_effects E s fuel bs mr w sr od)
    as (offs & Hreq & _ & _ & _ & _ & Hsleeps & _).
  fold run in Hreq, Hsleeps. rewrite Hsleeps, Hreq, length_app, length_fmap.
  destruct (run.1) as [[df|]|e]; [lia|done|lia].
Qed.

Lemma fetch_all_records_pauses_witness :
  sleeps (fetch_all_records 10 3 None "1=1" false "data/raw"
            (service seven_rows) (init 30)).2 = 2%nat.
Proof.
  rewrite (fetch_all_records_pauses (service seven_rows) (init 30) 10 3 None "1=1"
             false "data/raw").
  - vm_compute. reflexivity.
  - vm_compute. discriminate.
Defined.

(** X10. What a run writes, whatever its outcome. Without [save_raw] the
    disk is left as it was and no directory is created. With it, a file
    that is not one of [output_dir/raw_batch_NNNN.csv] is left as it was,
    and the only call of [os.makedirs] that succeeds is the one for
    [output_dir], which creates it together with the parents it lacks. *)
Theorem fetch_all_records_disk E s fuel bs mr w sr od :
  let run := fetch_all_records fuel bs mr w sr od E s in
  (sr = false → disk run.2 = disk s ∧ dirs run.2 = dirs s)
  ∧ (∀ path,
       (∀ i, path ≠ path_join od ("raw_batch_" +:+ pad4 i +:+ ".csv")) →
       disk run.2 !! path = disk s !! path)
  ∧ (dirs run.2 = dirs s ∨ dirs run.2 = dirs s ++ [od]).
Proof.
  intros run.
  destruct (fetch_all_records_effects E s fuel bs mr w sr od)
    as (offs & _ & _ & _ & _ & _ & _ & Hquiet & Hdisk & Hdirs & _).
  done.
Qed.

(** A returning run, in terms of its loop. *)
Lemma fetch_all_records_Some E s fuel bs mr w sr od df s' :
  fetch_all_records fuel bs mr w sr od E s = (Ok (Some df), s') →
  ∃ s0 s1 pages,
    announce bs sr od E s = (Ok tt, s0)
    ∧ fetch_all_loop fuel bs mr w sr od [] 0 0%nat E s0 = (Ok (Some pages), s1)
    ∧ requests s' = requests s1 ∧ disk s' = disk s1
    ∧ ((pages = [] ∧ df = DataFrame_empty ∧ s' = s1)
       ∨ (pages ≠ [] ∧ df = combined pages (now E (ticks s1))
          ∧ ticks s' = S (ticks s1)
          ∧ stdout s' = stdout s1 ++ [nl +:+ "✓ Total raw records fetched: "
                                        +:+ pretty (len (concat pages))])).
Proof.
  rewrite fetch_all_records_unfold.
  destruct (announce bs sr od E s) as [[[]|e0] s0]; [|done].
  destruct (fetch_all_loop fuel bs mr w sr od [] 0 0%nat E s0)
    as [[[[|p ps]|]|e] s1] eqn:Hloop; [| |done|done].
  - intros [= <- <-]. exists s0, s1, []. split_and!; try done. by left.
  - cbn zeta. cbn [datetime_now print snd ticks]. intros [= <- <-].
    exists s0, s1, (p :: ps). split_and!; try done. by right.
Qed.

(** X11. The frame a run returns holds the rows of the pages it fetched, in
    the order fetched. Page [i] is the answer to request number [i] of the
    run, was not empty, and was asked for at the offset that is the number
    of rows fetched before it. The run made one request per page, or one
    more that was answered by an empty page. *)
Theorem fetch_all_records_pages E s fuel bs mr w sr od df s' :
  fetch_all_records fuel bs mr w sr od E s = (Ok (Some df), s') →
  ∃ pages,
    rows df = mjoin (rows <$> pages)
    ∧ len df = total pages
    ∧ (∀ i p, pages !! i = Some p →
         ∃ b, http E (length (requests s) + i)
                (page_request s bs (total (take i pages)) w None false None) = Ok b
              ∧ error b = None ∧ p = page_of b ∧ empty p = false)
    ∧ (length (requests s') = (length (requests s) + length pages)%nat
       ∨ (length (requests s') = S (length (requests s) + length pages)
          ∧ ∃ b, http E (length (requests s) + length pages)
                   (page_request s bs (total pages) w None false None) = Ok b
                 ∧ error b = None ∧ empty (page_of b) = true)).
Proof.
  intros Hrun.
  apply fetch_all_records_Some in Hrun
    as (s0 & s1 & pages & Hann & Hloop & Hreq & _ & Hdf).
  destruct (announce_full bs sr od E s) as (Hs0 & Hr0 & _). rewrite Hann in Hs0, Hr0.
  cbn [snd] in Hs0, Hr0.
  apply loop_trace in Hloop as (new & Hnew & Hserved & Hreqs & _).
  cbn [app] in Hnew. subst new. unfold page_request in *.
  rewrite Hs0, Hr0 in *. rewrite Hreq. exists pages.
  assert (rows df = mjoin (rows <$> pages)) as Hrows.
  { destruct Hdf as [(-> & -> & _)|(_ & -> & _)]; [done|].
    unfold combined, set_attr. cbn [rows]. apply rows_concat. }
  split; [done|]. split.
  { unfold len. rewrite Hrows. rewrite <- rows_concat. apply len_concat. }
  split.
  { intros i p Hp. destruct (Hserved i p Hp) as (b & Hb). exists b.
    by rewrite Z.add_0_l in Hb. }
  destruct Hreqs as [->|[-> (b & Hb)]].
  - left. by rewrite length_app, length_fmap, offsets_from_length.
  - right. split.
    + rewrite length_app, length_fmap, length_app, offsets_from_length. cbn. lia.
    + exists b. by rewrite Z.add_0_l in Hb.
Qed.

Lemma fetch_all_records_pages_witness :
  ∃ df s' pages,
    fetch_all_records 10 3 None "1=1" false "data/raw" (service seven_rows) (init 30)
    = (Ok (Some df), s')
    ∧ rows df = mjoin (rows <$> pages)
    ∧ len df = total pages.
Proof.
  destruct (fetch_all_records 10 3 None "1=1" false "data/raw" (service seven_rows) (init 30))
    as [out s'] eqn:Hrun.
  assert (∃ df, out = Ok (Some df)) as (df & ->).
  { vm_compute in Hrun. injection Hrun as <- _. eexists. reflexivity. }
  destruct (fetch_all_records_pages _ _ _ _ _ _ _ _ _ _ Hrun) as (pages & Hrows & Hlen & _).
  exists df, s', pages. split; [reflexivity|]. split; [exact Hrows|exact Hlen].
Defined.

(** X12. With [save_raw], when the run returns, batch [i] is on disk under
    [output_dir/raw_batch_<i:04d>.csv]: the header is the columns of the
    page and there is one line per row, with the cells in column order. No
    later batch has overwritten it. *)
Theorem fetch_all_records_batch_files E s fuel bs mr w od df s' :
  fetch_all_records fuel bs mr w true od E s = (Ok (Some df), s') →
  ∃ pages,
    rows df = mjoin (rows <$> pages)
    ∧ ∀ i p, pages !! i = Some p →
        disk s' !! path_join od ("raw_batch_" +:+ pad4 i +:+ ".csv")
        = Some (Csv (columns p) ((λ r, (λ c, cell c r) <$> columns p) <$> rows p)).
Proof.
  intros Hrun.
  apply fetch_all_records_Some in Hrun
    as (s0 & s1 & pages & Hann & Hloop & _ & Hdisk & Hdf).
  apply loop_trace in Hloop as (new & Hnew & _ & _ & Hfiles).
  cbn [app] in Hnew. subst new. exists pages. split.
  { destruct Hdf as [(-> & -> & _)|(_ & -> & _)]; [done|].
    unfold combined, set_attr. cbn [rows]. apply rows_concat. }
  intros i p Hp. rewrite Hdisk. by apply (Hfiles eq_refl i p).
Qed.

Lemma fetch_all_records_batch_files_witness :
  ∃ df s' pages,
    fetch_all_records 10 3 None "1=1" true "data/raw" (service seven_rows) (init 30)
    = (Ok (Some df), s')
    ∧ rows df = mjoin (rows <$> pages)
    ∧ ∀ i p, pages !! i = Some p →
        disk s' !! path_join "data/raw" ("raw_batch_" +:+ pad4 i +:+ ".csv")
        = Some (Csv (columns p) ((λ r, (λ c, cell c r) <$> columns p) <$> rows p)).
Proof.
  destruct (fetch_all_records 10 3 None "1=1" true "data/raw" (service seven_rows) (init 30))
    as [out s'] eqn:Hrun.
  assert (∃ df, out = Ok (Some df)) as (df & ->).
  { vm_compute in Hrun. injection Hrun as <- _. eexists. reflexivity. }
  destruct (fetch_all_records_batch_files _ _ _ _ _ _ _ _ _ Hrun) as (pages & Hrows & Hfiles).
  exists df, s', pages. split; [reflexivity|]. split; [exact Hrows|exact Hfiles].
Defined.

(** X13. The annotations of the result. A run that fetched nothing returns
    [pd.DataFrame()] itself, without annotations and without reading the
    clock. Otherwise the frame has rows, its annotations are exactly
    [extraction_timestamp], the one reading of the clock the run takes,
    and [total_records], its own number of rows; and the last line printed
    is the total. *)
Theorem fetch_all_records_annotations E s fuel bs mr w sr od df s' :
  fetch_all_records fuel bs mr w sr od E s = (Ok (Some df), s') →
  (df = DataFrame_empty ∧ ticks s' = ticks s)
  ∨ (rows df ≠ []
     ∧ attrs df = <["total_records" := VInt (len df)]>
                    (<["extraction_timestamp" := VStr (isoformat (now E (ticks s)))]> ∅)
     ∧ ticks s' = S (ticks s)
     ∧ last (stdout s')
       = Some (nl +:+ "✓ Total raw records fetched: " +:+ pretty (len df))).
Proof.
  intros Hrun.
  apply fetch_all_records_Some in Hrun
    as (s0 & s1 & pages & Hann & Hloop & _ & _ & Hdf).
  destruct (announce_full bs sr od E s) as (_ & _ & _ & _ & Ht0 & _).
  rewrite Hann in Ht0. cbn [snd] in Ht0.
  destruct (loop_effects E bs mr w sr od fuel [] 0 0%nat s0)
    as (_ & _ & _ & _ & _ & _ & Hticks & _).
  rewrite Hloop in Hticks. cbn [snd] in Hticks. rewrite Ht0 in Hticks.
  destruct Hdf as [(-> & -> & ->)|(Hne & -> & Ht & Hout)]; [by left|right].
  rewrite Hticks in *. split_and!; try done.
  - apply loop_trace in Hloop as (new & Hnew & Hserved & _).
    cbn [app] in Hnew. subst new.
    destruct pages as [|p ps]; [done|].
    destruct (Hserved 0%nat p eq_refl) as (b & _ & _ & _ & Hemp).
    apply empty_false_iff in Hemp as [Hrows _].
    cbn [combined set_attr rows concat fmap list_fmap mjoin list_join].
    by destruct (rows p).
  - rewrite Hout. by rewrite last_snoc.
Qed.

Lemma fetch_all_records_annotations_witness :
  ∃ df, (fetch_all_records 10 3 None "1=1" false "data/raw"
           (service seven_rows) (init 30)).1 = Ok (Some df)
    ∧ attrs df !! "total_records" = Some (VInt 7).
Proof.
  destruct (fetch_all_records 10 3 None "1=1" false "data/raw" (service seven_rows) (init 30))
    as [out s'] eqn:Hrun.
  assert (∃ df, out = Ok (Some df) ∧ len df = 7) as (df & -> & Hlen).
  { vm_compute in Hrun. injection Hrun as <- _. eexists. split; reflexivity. }
  exists df. split; [reflexivity|].
  destruct (fetch_all_records_annotations _ _ _ _ _ _ _ _ _ _ Hrun)
    as [[-> _]|(_ & -> & _)]; [discriminate Hlen|].
  rewrite lookup_insert_eq. by rewrite Hlen.
Defined.

(** *** A run that raises *)

Lemma loop_raise E bs mr w sr od fuel : ∀ all_data offset bn s e s',
  fetch_all_loop fuel bs mr w sr od all_data offset bn E s = (Raise e, s') →
  (sr = true ∧ ∃ i, e = OSError (batch_file od i) ∧ open_ok E (batch_file od i) = false)
  ∨ (∃ reqs r, requests s' = reqs ++ [r]
       ∧ page_outcome (timeout (self s)) (http E (length reqs) r) = Raise e).
Proof.
  induction fuel as [|fuel IH]; intros all_data offset bn s e s'; [done|].
  rewrite loop_S.
  pose proof (fetch_records_full E s bs offset w None false None) as Hf. cbn zeta in Hf.
  destruct Hf as (Hout & Hs1 & Hr1 & _).
  destruct (fetch_records bs offset w None false None E s) as [[p|e1] s1]; cbn [fst snd] in *.
  2:{ intros [= -> ->]. right. eexists _, _. split; [exact Hr1|]. by rewrite <- Hout. }
  destruct (empty p); [done|].
  pose proof (save_batch_full sr od bn p E s1) as Hsb. cbn zeta in Hsb.
  destruct Hsb as (Hs2 & Hr2 & _ & _ & _ & Hsb).
  destruct (save_batch sr od bn p E s1) as [[[]|e2] s2]; cbn [fst snd] in *.
  2:{ intros [= -> ->]. destruct Hsb as [[[=] _]|(-> & Hopen & [= ->] & _)].
      left. split; [done|]. by exists bn. }
  destruct (cap_reached mr (offset + len p)); [done|].
  destruct (len p <? bs); [done|].
  set (s3 := (sleep_half E s2).2).
  assert (self s3 = self s) as Hs3 by (cbn; congruence). clearbody s3.
  intros H. apply IH in H. by rewrite Hs3 in H.
Qed.

(** X14. A run that raises has not retried anything. Either the directory
    for the batches could not be created and nothing was requested; or a
    batch file could not be opened; or the exception is what
    [fetch_records] made of the answer to the last request sent, and no
    request followed it. *)
Theorem fetch_all_records_failure E s fuel bs mr w sr od e s' :
  fetch_all_records fuel bs mr w sr od E s = (Raise e, s') →
  (sr = true ∧ e = OSError od ∧ makedirs_ok E od = false ∧ s' = s)
  ∨ (sr = true
     ∧ ∃ i, e = OSError (path_join od ("raw_batch_" +:+ pad4 i +:+ ".csv")))
  ∨ (∃ reqs r, requests s' = reqs ++ [r]
       ∧ page_outcome (timeout (self s)) (http E (length reqs) r) = Raise e).
Proof.
  rewrite fetch_all_records_unfold.
  destruct (announce_full bs sr od E s) as (Hs0 & _ & _ & _ & _ & Hann).
  destruct (announce bs sr od E s) as [[[]|e0] s0]; cbn [fst snd] in *.
  2:{ intros [= -> ->]. destruct Hann as [[[=] _]|(-> & Hmk & [= ->] & ->)]. by left. }
  destruct (fetch_all_loop fuel bs mr w sr od [] 0 0%nat E s0)
    as [[[[|p ps]|]|e1] s1] eqn:Hloop; try done.
  intros [= -> ->]. apply loop_raise in Hloop as [(-> & i & -> & _)|Hlast].
  - right. left. split; [done|]. by exists i.
  - right. right. by rewrite Hs0 in Hlast.
Qed.

Lemma fetch_all_records_failure_witness :
  ∃ e s',
    fetch_all_records 5 2 None "1=1" false "data/raw"
      (mock [Ok (body_of (sample_features 0 2)); Raise (Timeout "read timed out")])
      (init 30) = (Raise e, s')
    ∧ ∃ reqs r, requests s' = reqs ++ [r].
Proof.
  destruct (fetch_all_records 5 2 None "1=1" false "data/raw"
              (mock [Ok (body_of (sample_features 0 2)); Raise (Timeout "read timed out")])
              (init 30)) as [out s'] eqn:Hrun.
  assert (∃ e, out = Raise e) as (e & ->).
  { vm_compute in Hrun. injection Hrun as <- _. eexists. reflexivity. }
  exists e, s'. split; [reflexivity|].
  destruct (fetch_all_records_failure _ _ _ _ _ _ _ _ _ _ Hrun)
    as [(Hsr & _)|[(Hsr & _)|(reqs & r & Hreq & _)]].
  - discriminate Hsr.
  - discriminate Hsr.
  - exists reqs, r. exact Hreq.
Defined.

(** *** Against a service that pages through a table *)

Lemma service_pages_through table : pages_through (service table) table.
Proof.
  intros k r o c Ho Hc Hpos Hcpos. unfold service. cbn [http]. rewrite Ho, Hc.
  apply Z.leb_le in Hpos, Hcpos. by rewrite Hpos, Hcpos.
Qed.

Lemma attributes_features_of l :
  (λ f : feature, default [] (attributes f)) <$> features_of l = l.
Proof. unfold features_of. induction l as [|r l IH]; [done|]. cbn. by f_equal. Qed.

Lemma page_of_features_of r l :
  page_of (body_of (features_of (r :: l))) = DataFrame_of_records (r :: l).
Proof.
  change (DataFrame_of_records
            ((λ f : feature, default [] (attributes f)) <$> features_of (r :: l))
          = DataFrame_of_records (r :: l)).
  by rewrite attributes_features_of.
Qed.

Lemma join_rows_cons p ps :
  mjoin (rows <$> (p :: ps)) = rows p ++ mjoin (rows <$> ps).
Proof. done. Qed.

Lemma page_of_rows l : rows (page_of (body_of (features_of l))) = l.
Proof. destruct l as [|r l]; [done|]. by rewrite page_of_features_of. Qed.

Lemma page_of_empty l :
  Forall (λ r : row, r ≠ []) l →
  empty (page_of (body_of (features_of l))) = bool_decide (l = []).
Proof.
  intros Hl. destruct l as [|r l]; [done|].
  rewrite bool_decide_false by done.
  apply empty_false_iff. rewrite page_of_features_of. split; [done|].
  apply Forall_cons in Hl as [Hr _]. destruct r as [|[k v] r]; [done|].
  intros Hcols.
  assert (k ∈ columns (DataFrame_of_records (((k, v) :: r) :: l))) as Hk.
  { unfold DataFrame_of_records. cbn [columns]. apply records_labels_elem. right.
    exists ((k, v) :: r). split; [by left|]. by left. }
  rewrite Hcols in Hk. by apply elem_of_nil in Hk.
Qed.

(** The answer of a paging service to the request of [fetch_records]. *)
Lemma pages_through_request E table s bs k w i :
  pages_through E table → 1 ≤ bs →
  http E i (page_request s bs (Z.of_nat k) w None false None)
  = Ok (body_of (features_of (take (Z.to_nat (Z.min bs 2000)) (drop k table)))).
Proof.
  intros Hsvc Hbs.
  rewrite (Hsvc i _ (Z.of_nat k) (Z.min bs 2000)); [by rewrite Nat2Z.id| | |lia|lia].
  - apply lookup_offset.
  - apply lookup_record_count.
Qed.

Lemma loop_pages_through E table bs w sr od :
  pages_through E table → Forall (λ r : row, r ≠ []) table → 1 ≤ bs ≤ 2000 →
  (sr = true → ∀ path, open_ok E path = true) →
  ∀ fuel all_data k bn s,
    (k ≤ length table)%nat →
    ((length table - k) `div` Z.to_nat bs < fuel)%nat →
    ∃ pages s',
      fetch_all_loop fuel bs None w sr od all_data (Z.of_nat k) bn E s
      = (Ok (Some (all_data ++ pages)), s')
      ∧ mjoin (rows <$> pages) = drop k table
      ∧ length (requests s')
        = (length (requests s) + (length table - k) `div` Z.to_nat bs + 1)%nat.
Proof.
  intros Hsvc Hrows Hbs Hopen.
  induction fuel as [|fuel IH]; intros all_data k bn s Hk Hfuel; [lia|].
  rewrite loop_S.
  destruct (fetch_records_run E s bs (Z.of_nat k) w None false None) as (sx & -> & Hr1 & Hs1).
  rewrite (pages_through_request E table) by (done || lia).
  replace (Z.min bs 2000) with bs by lia.
  set (l := take (Z.to_nat bs) (drop k table)).
  assert (Forall (λ r : row, r ≠ []) l) as Hl.
  { subst l. by apply Forall_take, Forall_drop. }
  assert (length l = Z.to_nat bs `min` (length table - k))%nat as Hlen.
  { subst l. by rewrite length_take, length_drop. }
  cbn [page_outcome body_of error]. fold (body_of (features_of l)).
  rewrite page_of_empty by done.
  destruct l as [|r l'] eqn:Hl'.
  - rewrite bool_decide_true by done. exists [], sx. rewrite app_nil_r.
    cbn [length] in Hlen.
    assert (length table - k = 0)%nat as Hz by lia. rewrite Hz.
    split; [done|]. split.
    + cbn. symmetry. apply drop_ge. lia.
    + rewrite Hr1, length_app. rewrite Nat.Div0.div_0_l. cbn. lia.
  - rewrite bool_decide_false by done. rewrite <- Hl' in *. clear Hl'.
    destruct (save_batch_Ok sr od bn (page_of (body_of (features_of l))) E sx Hopen)
      as (s2 & -> & Hr2 & Hs2).
    cbn [cap_reached].
    assert (len (page_of (body_of (features_of l))) = Z.of_nat (length l)) as Hlenp.
    { unfold len. by rewrite page_of_rows. }
    rewrite Hlenp.
    destruct (Z.ltb_spec (Z.of_nat (length l)) bs) as [Hshort|Hfull].
    + exists [page_of (body_of (features_of l))], s2.
      split; [done|]. split.
      * rewrite join_rows_cons, page_of_rows. cbn. rewrite app_nil_r.
        subst l. apply take_ge. rewrite length_drop. lia.
      * rewrite Hr2, Hr1, length_app. rewrite Nat.div_small by lia. cbn. lia.
    + assert (length l = Z.to_nat bs) as Hlb by lia.
      replace (Z.of_nat k + Z.of_nat (length l)) with (Z.of_nat (k + Z.to_nat bs)) by lia.
      set (s3 := (sleep_half E s2).2).
      assert (requests s3 = requests s2) as Hr3 by done. clearbody s3.
      destruct (IH (all_data ++ [page_of (body_of (features_of l))]) (k + Z.to_nat bs)%nat
                  (S bn) s3) as (pages & s' & -> & Hjoin & Hreq).
      * lia.
      * replace (length table - k)%nat
          with (length table - (k + Z.to_nat bs) + 1 * Z.to_nat bs)%nat in Hfuel by lia.
        rewrite Nat.div_add in Hfuel by lia. lia.
      * exists (page_of (body_of (features_of l)) :: pages), s'.
        split; [by rewrite <- app_assoc|]. split.
        -- rewrite join_rows_cons, page_of_rows, Hjoin.
           subst l. rewrite <- drop_drop. apply take_drop.
        -- rewrite Hreq, Hr3, Hr2, Hr1, length_app. cbn [length].
           assert ((length table - k) `div` Z.to_nat bs
                   = (length table - (k + Z.to_nat bs)) `div` Z.to_nat bs + 1)%nat as ->; [|lia].
           rewrite <- Nat.div_add by lia. f_equal. lia.
Qed.

(** X15. Complete retrieval. Against a service that pages through a table
    whose rows all have a field, with a batch size between 1 and 2000, no
    cap and fuel for [length table / batch_size + 1] iterations, the run
    returns exactly the rows of the table, in the order of the table, and
    makes [length table / batch_size + 1] requests. *)
Theorem fetch_all_records_complete E table s fuel bs w sr od :
  pages_through E table →
  Forall (λ r : row, r ≠ []) table →
  1 ≤ bs ≤ 2000 →
  (sr = true → makedirs_ok E od = true ∧ ∀ path, open_ok E path = true) →
  (length table `div` Z.to_nat bs < fuel)%nat →
  ∃ df s',
    fetch_all_records fuel bs None w sr od E s = (Ok (Some df), s')
    ∧ rows df = table
    ∧ length (requests s')
      = (length (requests s) + length table `div` Z.to_nat bs + 1)%nat.
Proof.
  intros Hsvc Hrows Hbs Hdisk Hfuel. rewrite fetch_all_records_unfold.
  destruct (announce_Ok bs sr od E s) as (s0 & -> & Hr0 & _); [by intros []%Hdisk|].
  destruct (loop_pages_through E table bs w sr od Hsvc Hrows Hbs
              (λ H, proj2 (Hdisk H)) fuel [] 0%nat 0%nat s0)
    as (pages & s1 & Hloop & Hjoin & Hreq); [lia|by rewrite Nat.sub_0_r|].
  change (Z.of_nat 0) with 0 in Hloop. rewrite Hloop. cbn [app].
  rewrite Nat.sub_0_r, Hr0 in Hreq. rewrite drop_0 in Hjoin.
  destruct pages as [|p ps].
  - exists DataFrame_empty, s1. split_and!; [done|by rewrite <- Hjoin|done].
  - cbn zeta. eexists _, _. split; [done|]. split; [|done].
    unfold combined, set_attr. cbn [rows]. by rewrite rows_concat.
Qed.

Lemma fetch_all_records_complete_witness :
  ∃ df s',
    fetch_all_records 3 3 None "1=1" false "data/raw" (service seven_rows) (init 30)
    = (Ok (Some df), s')
    ∧ rows df = seven_rows
    ∧ length (requests s') = 3%nat.
Proof.
  apply (fetch_all_records_complete (service seven_rows) seven_rows (init 30) 3 3 "1=1"
           false "data/raw").
  - apply service_pages_through.
  - unfold seven_rows. apply Forall_fmap, Forall_forall. intros i _. discriminate.
  - lia.
  - discriminate.
  - vm_compute. lia.
Defined.

(** *** A cap of zero *)

(** C10 (as amended). A run with [max_records = 0] is the run without a
    cap: same requests, same output, same result. Against a service that
    pages through a table whose rows all have a field, with a batch size
    between 1 and 2000 and fuel for [length table / batch_size + 1]
    iterations (and a disk that accepts the batches when they are saved),
    it returns every row of the table, in [length table / batch_size + 1]
    requests. *)
Theorem zero_cap_is_no_cap E s bs w sr od fuel :
  fetch_all_records fuel bs (Some 0) w sr od E s
  = fetch_all_records fuel bs None w sr od E s
  ∧ ∀ table,
      pages_through E table →
      Forall (λ r : row, r ≠ []) table →
      1 ≤ bs ≤ 2000 →
      (sr = true → makedirs_ok E od = true ∧ ∀ path, open_ok E path = true) →
      (length table `div` Z.to_nat bs < fuel)%nat →
      ∃ df s',
        fetch_all_records fuel bs (Some 0) w sr od E s = (Ok (Some df), s')
        ∧ rows df = table
        ∧ length (requests s')
          = (length (requests s) + length table `div` Z.to_nat bs + 1)%nat.
Proof.
  split; [apply fetch_all_records_zero_cap|].
  intros table Hsvc Hrows Hbs Hdisk Hfuel.
  rewrite fetch_all_records_zero_cap, fetch_all_records_unfold.
  destruct (announce_Ok bs sr od E s) as (s0 & -> & Hr0 & _); [by intros []%Hdisk|].
  destruct (loop_pages_through E table bs w sr od Hsvc Hrows Hbs
              (λ H, proj2 (Hdisk H)) fuel [] 0%nat 0%nat s0)
    as (pages & s1 & Hloop & Hjoin & Hreq); [lia|by rewrite Nat.sub_0_r|].
  change (Z.of_nat 0) with 0 in Hloop. rewrite Hloop. cbn [app].
  rewrite Nat.sub_0_r, Hr0 in Hreq. rewrite drop_0 in Hjoin.
  destruct pages as [|p ps].
  - exists DataFrame_empty, s1. split_and!; [done|by rewrite <- Hjoin|done].
  - cbn zeta. eexists _, _. split; [done|]. split; [|done].
    unfold combined, set_attr. cbn [rows]. by rewrite rows_concat.
Qed.

Lemma zero_cap_is_no_cap_witness :
  ∃ df s',
    fetch_all_records 5 2 (Some 0) "1=1" false "data/raw" (service seven_rows) (init 30)
    = (Ok (Some df), s')
    ∧ rows df = seven_rows
    ∧ length (requests s') = 4%nat.
Proof.
  apply (proj2 (zero_cap_is_no_cap (service seven_rows) (init 30) 2 "1=1" false
                  "data/raw" 5) seven_rows).
  - apply service_pages_through.
  - unfold seven_rows. apply Forall_fmap, Forall_forall. intros i _. discriminate.
  - lia.
  - discriminate.
  - vm_compute. lia.
Defined.

(** C10 as stated does not hold. A service holding three records without
    any field: the first page counts as empty, so the run with
    [max_records = 0], like the run without a cap, makes one request and
    returns [pd.DataFrame()], zero records and not the three available.
    And a service holding 2500 records, asked in batches of 5000: the run
    returns 2000 of them. *)
Lemma zero_cap_fetches_no_bare_rows :
  let bare : list row := [[]; []; []] in
  let run := fetch_all_records 5 2 (Some 0) "1=1" false "data/raw" (service bare)
               (init 30) in
  let long := sample_row <$> seq 0 2500 in
  let run' := fetch_all_records 5 5000 (Some 0) "1=1" false "data/raw" (service long)
                (init 30) in
  (pages_through (service bare) bare
   ∧ length bare = 3%nat
   ∧ run = fetch_all_records 5 2 None "1=1" false "data/raw" (service bare) (init 30)
   ∧ run.1 = Ok (Some DataFrame_empty)
   ∧ len DataFrame_empty = 0
   ∧ length (requests run.2) = 1%nat)
  ∧ (pages_through (service long) long
     ∧ length long = 2500%nat
     ∧ match run'.1 with Ok (Some df) => len df = 2000 | _ => False end).
Proof.
  intros bare run long run'. split.
  - split; [apply service_pages_through|]. by vm_compute.
  - split; [apply service_pages_through|]. by vm_compute.
Qed.

(** X16. A batch size above 2000 truncates. The service is asked for 2000
    rows, the page it answers with is shorter than the batch size, and the
    loop takes it for the last one. Against a service that pages through
    a table that is not empty and whose rows all have a field, without
    [save_raw] and with fuel for one iteration, the run makes one request
    and returns the first 2000 rows of the table, however long the table
    is. *)
Theorem fetch_all_records_oversized_batch E table s fuel bs w od :
  pages_through E table →
  Forall (λ r : row, r ≠ []) table →
  table ≠ [] →
  2000 < bs →
  fuel ≠ 0%nat →
  ∃ df s',
    fetch_all_records fuel bs None w false od E s = (Ok (Some df), s')
    ∧ rows df = take 2000 table
    ∧ requests s' = requests s ++ [page_request s bs 0 w None false None].
Proof.
  intros Hsvc Hrows Hne Hbs Hfuel. rewrite fetch_all_records_unfold.
  destruct (announce_Ok bs false od E s) as (s0 & -> & Hr0 & Hs0); [done|].
  destruct fuel as [|fuel]; [done|]. rewrite loop_S.
  destruct (fetch_records_run E s0 bs 0 w None false None) as (sx & -> & Hr1 & Hs1).
  change 0 with (Z.of_nat 0) at 1.
  rewrite (pages_through_request E table) by (done || lia).
  replace (Z.min bs 2000) with 2000 by lia. rewrite drop_0.
  change (Z.to_nat 2000) with 2000%nat.
  set (l := take 2000 table).
  assert (Forall (λ r : row, r ≠ []) l) as Hl by (by apply Forall_take).
  assert (l ≠ []) as Hlne.
  { subst l. destruct table; [done|]. done. }
  assert (length l ≤ 2000)%nat as Hlen.
  { subst l. rewrite length_take. lia. }
  cbn [page_outcome body_of error]. fold (body_of (features_of l)).
  rewrite page_of_empty by done. rewrite bool_decide_false by done.
  cbn [save_batch ret cap_reached].
  assert (len (page_of (body_of (features_of l))) = Z.of_nat (length l)) as Hlenp.
  { unfold len. by rewrite page_of_rows. }
  rewrite Hlenp.
  destruct (Z.ltb_spec (Z.of_nat (length l)) bs) as [_|?]; [|lia].
  cbn [app]. cbn zeta. eexists _, _. split; [done|]. split.
  - unfold combined, set_attr. cbn [rows]. rewrite rows_concat.
    rewrite join_rows_cons, page_of_rows. cbn. by rewrite app_nil_r.
  - cbn [datetime_now print snd requests]. rewrite Hr1, Hr0.
    unfold page_request. by rewrite Hs0.
Qed.

Lemma fetch_all_records_oversized_batch_witness :
  ∃ df s',
    fetch_all_records 5 5000 None "1=1" false "data/raw"
      (service (sample_row <$> seq 0 2500)) (init 30) = (Ok (Some df), s')
    ∧ rows df = take 2000 (sample_row <$> seq 0 2500)
    ∧ length (requests s') = 1%nat.
Proof.
  destruct (fetch_all_records_oversized_batch (service (sample_row <$> seq 0 2500))
              (sample_row <$> seq 0 2500) (init 30) 5 5000 "1=1" "data/raw")
    as (df & s' & Hrun & Hrows & Hreq).
  - apply service_pages_through.
  - apply Forall_fmap, Forall_forall. intros i _. discriminate.
  - discriminate.
  - lia.
  - discriminate.
  - exists df, s'. split; [exact Hrun|]. split; [exact Hrows|].
    rewrite Hreq. reflexivity.
Defined.

Lemma cap_reached_negative m o : m < 0 → 0 ≤ o → cap_reached (Some m) o = true.
Proof.
  intros Hm Ho. unfold cap_reached. destruct (Z.eqb_spec m 0); [lia|]. cbn.
  apply Z.leb_le. lia.
Qed.

(** X17. A negative cap ends the run after its first batch. A negative
    [max_records] is true in a condition and every offset is at least as
    large, so the cap counts as reached at once: the run makes at most one
    request, and what it returns is the first page alone. *)
Theorem fetch_all_records_negative_cap E s fuel bs m w sr od :
  m < 0 →
  let run := fetch_all_records fuel bs (Some m) w sr od E s in
  (requests run.2 = requests s
   ∨ requests run.2 = requests s ++ [page_request s bs 0 w None false None])
  ∧ ∀ df, run.1 = Ok (Some df) →
      df = DataFrame_empty
      ∨ ∃ b, http E (length (requests s)) (page_request s bs 0 w None false None) = Ok b
             ∧ rows df = rows (page_of b).
Proof.
  intros Hm run. subst run. rewrite fetch_all_records_unfold.
  destruct (quiet_announce bs sr od E s) as [Hr0 Hs0].
  destruct (announce bs sr od E s) as [[[]|e0] s0]; cbn [fst snd] in *; [|by split; [left|]].
  destruct fuel as [|fuel]; [by split; [left|]|]. rewrite loop_S.
  destruct (fetch_records_run E s0 bs 0 w None false None) as (sx & -> & Hr1 & Hs1).
  unfold page_request in *. rewrite Hs0, Hr0 in *.
  destruct (page_outcome _ _) as [p|e] eqn:Hout; cbn [fst snd]; [|by split; [right|]].
  apply page_outcome_Ok in Hout as (b & Hb & Herr & ->).
  destruct (empty (page_of b)) eqn:Hemp; cbn [fst snd].
  { split; [by right|]. intros df [= <-]. by left. }
  destruct (quiet_save_batch sr od 0%nat (page_of b) E sx) as [Hr2 _].
  destruct (save_batch sr od 0 (page_of b) E sx) as [[[]|e] s2]; cbn [fst snd] in *;
    [|split; [right; congruence|done]].
  rewrite cap_reached_negative by (pose proof (len_nonneg (page_of b)); lia).
  cbn [app]. cbn zeta. cbn [datetime_now print fst snd requests].
  split; [right; congruence|]. intros df [= <-]. right. exists b. split; [done|].
  unfold combined, set_attr. cbn [rows]. rewrite rows_concat. cbn. by rewrite app_nil_r.
Qed.

Lemma fetch_all_records_negative_cap_witness :
  length (requests (fetch_all_records 10 2 (Some (-1)) "1=1" false "data/raw"
                      (service seven_rows) (init 30)).2) = 1%nat.
Proof.
  destruct (fetch_all_records_negative_cap (service seven_rows) (init 30) 10 2 (-1) "1=1"
              false "data/raw") as [[Hreq|Hreq] _].
  - lia.
  - vm_compute in Hreq. discriminate Hreq.
  - rewrite Hreq. reflexivity.
Defined.

(** A run only adds lines to the output. *)
Lemma fetch_records_stdout E s limit offset w flds rg ob :
  ∃ out, stdout (fetch_records limit offset w flds rg ob E s).2 = stdout s ++ out.
Proof.
  pose proof (fetch_records_full E s limit offset w flds rg ob) as H.
  cbn zeta in H. destruct H as (_ & _ & _ & -> & _). eauto.
Qed.

Lemma loop_stdout E bs mr w sr od fuel : ∀ all_data offset bn s,
  ∃ out, stdout (fetch_all_loop fuel bs mr w sr od all_data offset bn E s).2
         = stdout s ++ out.
Proof.
  induction fuel as [|fuel IH]; intros all_data offset bn s.
  { exists []. by rewrite app_nil_r. }
  rewrite loop_S.
  destruct (fetch_records_stdout E s bs offset w None false None) as [o1 Ho1].
  destruct (fetch_records bs offset w None false None E s) as [[p|e] s1];
    cbn [snd] in Ho1; [|by eauto].
  destruct (empty p); [by eauto|].
  assert (∃ o2, stdout (save_batch sr od bn p E s1).2 = stdout s1 ++ o2) as [o2 Ho2].
  { unfold save_batch, to_csv, write_file, print. unfold_M.
    destruct sr; [|exists []; by rewrite app_nil_r].
    destruct (open_ok E _); [by eexists [_]|exists []; by rewrite app_nil_r]. }
  destruct (save_batch sr od bn p E s1) as [[[]|e] s2]; cbn [snd] in Ho2.
  2:{ exists (o1 ++ o2). cbn [snd]. by rewrite Ho2, Ho1, app_assoc. }
  destruct (cap_reached mr (offset + len p)).
  { cbn [print snd stdout]. eexists (o1 ++ o2 ++ [_]).
    by rewrite Ho2, Ho1, !app_assoc. }
  destruct (len p <? bs).
  { exists (o1 ++ o2). cbn [snd]. by rewrite Ho2, Ho1, app_assoc. }
  set (s3 := (sleep_half E s2).2).
  assert (stdout s3 = stdout s2) as Hs3 by done. clearbody s3.
  destruct (IH (all_data ++ [p]) (offset + len p) (S bn) s3) as [o3 ->].
  exists (o1 ++ o2 ++ o3). by rewrite Hs3, Ho2, Ho1, !app_assoc.
Qed.

Lemma fetch_all_records_stdout E s fuel bs mr w sr od :
  ∃ out, stdout (fetch_all_records fuel bs mr w sr od E s).2 = stdout s ++ out.
Proof.
  rewrite fetch_all_records_unfold.
  assert (∃ o0, stdout (announce bs sr od E s).2 = stdout s ++ o0) as [o0 Ho0].
  { unfold announce, makedirs, print. unfold_M.
    destruct sr; [|by eexists [_]].
    destruct (makedirs_ok E od); [by eexists [_; _]; cbn; rewrite <- app_assoc|].
    exists []. by rewrite app_nil_r. }
  destruct (announce bs sr od E s) as [[[]|e0] s0]; cbn [snd] in *; [|by eauto].
  destruct (loop_stdout E bs mr w sr od fuel [] 0 0%nat s0) as [o1 Ho1].
  destruct (fetch_all_loop fuel bs mr w sr od [] 0 0%nat E s0) as [[[[|p ps]|]|e] s1];
    cbn [snd] in *.
  - exists (o0 ++ o1). by rewrite Ho1, Ho0, app_assoc.
  - cbn zeta. cbn [datetime_now print snd stdout]. eexists (o0 ++ o1 ++ [_]).
    by rewrite Ho1, Ho0, !app_assoc.
  - exists (o0 ++ o1). by rewrite Ho1, Ho0, app_assoc.
  - exists (o0 ++ o1). by rewrite Ho1, Ho0, app_assoc.
Qed.

(** ** The time-windowed fetch *)

(** X18. [fetch_recent] reads the clock before anything else and builds
    its where clause from that reading alone. When the cutoff date cannot
    be computed it raises, having printed and requested nothing. Otherwise
    every request of the run carries the one where clause
    [Created_at_local >= '<date>'], asks for 2000 rows of all fields, and
    nothing is written to disk: the rows are filtered by the service
    alone. The only other reading of the clock is the one
    [fetch_all_records] takes for [extraction_timestamp] when it returns
    rows. *)
Theorem fetch_recent_requests cutoff E s fuel days :
  let run := fetch_recent cutoff fuel days E s in
  match cutoff (now E (ticks s)) days with
  | Raise e =>
      run.1 = Raise e ∧ requests run.2 = requests s ∧ stdout run.2 = stdout s
      ∧ ticks run.2 = S (ticks s)
  | Ok date_str =>
      let w := "Created_at_local >= '" +:+ date_str +:+ "'" in
      (∃ offs,
         requests run.2
         = requests s ++ ((λ o, page_request s 2000 o w None false None) <$> offs)
         ∧ (offs ≠ [] → head offs = Some 0)
         ∧ (∀ i o o', offs !! i = Some o → offs !! S i = Some o' → o < o'))
      ∧ (∀ r, r ∈ drop (length (requests s)) (requests run.2) →
           params r !! "where" = Some (PStr w)
           ∧ params r !! "outFields" = Some (PStr "*")
           ∧ params r !! "resultRecordCount" = Some (PInt 2000))
      ∧ head (drop (length (stdout s)) (stdout run.2))
        = Some ("Fetching requests from last " +:+ pretty days +:+ " days (since "
                +:+ date_str +:+ ")...")
      ∧ disk run.2 = disk s ∧ dirs run.2 = dirs s ∧ self run.2 = self s
      ∧ ticks run.2
        = (S (ticks s) + match run.1 with
                         | Ok (Some df) => if decide (rows df = []) then 0 else 1
                         | _ => 0
                         end)%nat
  end.
Proof.
  intros run. subst run. unfold fetch_recent. unfold_M. cbn [datetime_now].
  destruct (cutoff (now E (ticks s)) days) as [date_str|e]; [|done].
  cbn [print].
  set (w := "Created_at_local >= '" +:+ date_str +:+ "'").
  match goal with
  | |- context [fetch_all_records _ _ _ _ _ _ E ?s0] => set (s1 := s0)
  end.
  destruct (fetch_all_records_effects E s1 fuel 2000 None w false "data/raw")
    as (offs & Hreq & _ & Hhead & Hinc & Hself & _ & Hquiet & _ & _ & Hticks).
  destruct (Hquiet eq_refl) as [Hdisk Hdirs].
  assert (∃ out, stdout (fetch_all_records fuel 2000 None w false "data/raw" E s1).2
                 = stdout s1 ++ out) as [out Hout].
  { apply fetch_all_records_stdout. }
  split_and!; try done.
  - by exists offs.
  - intros r. rewrite Hreq. change (requests s1) with (requests s).
    rewrite drop_app_length. intros (o & -> & _)%list_elem_of_fmap.
    cbn [page_request params]. unfold query_params. by split_and!.
  - rewrite Hout. subst s1. cbn [stdout]. rewrite <- app_assoc.
    by rewrite drop_app_length.
Qed.

(** ** Saving, continued *)

Lemma bind_Raise_inv {A B} (m : M A) (k : A → M B) E s e s' :
  (m ≫= k) E s = (Raise e, s') →
  m E s = (Raise e, s') ∨ ∃ a s1, m E s = (Ok a, s1) ∧ k a E s1 = (Raise e, s').
Proof.
  unfold_M. destruct (m E s) as [[a|e1] s1]; intros H; [right; eauto|].
  injection H as -> ->. by left.
Qed.

(** The reductions of the date column leave the state as it is. *)
Lemma date_bound_state is_max df E s :
  ((if bool_decide ("Created_at_local" ∈ columns df)
    then v ← series_reduce is_max (column df "Created_at_local"); ret (Some (str v))
    else ret None) E s).2 = s.
Proof.
  destruct (bool_decide _); [|done]. unfold_M.
  pose proof (series_reduce_state is_max (column df "Created_at_local") E s) as Hs.
  by destruct (series_reduce _ _ E s) as [[v|e] sx].
Qed.

(** The two steps of [save_raw_data] up to the path of the table. *)
Lemma save_raw_data_name filename E s :
  (match filename with
   | None => t ← datetime_now; ret ("syracuse_311_raw_" +:+ strftime t +:+ ".csv")
   | Some f => ret f
   end) E s
  = (Ok (table_name filename (now E (ticks s))),
     match filename with
     | None => (datetime_now E s).2
     | Some _ => s
     end).
Proof. by destruct filename. Qed.

(** The whole effect of a successful [save_raw_data]. *)
Lemma save_raw_data_Ok E s df filename od path s' :
  save_raw_data df filename od E s = (Ok path, s') →
  let k := match filename with Some _ => 0%nat | None => 1%nat end in
  let metadata_file := replace path ".csv" "_metadata.json" in
  path = path_join od (table_name filename (now E (ticks s)))
  ∧ (∃ m, disk s'
          = <[metadata_file := Json m]>
              (<[path := Csv (columns df) ((λ r, (λ c, cell c r) <$> columns df) <$> rows df)]>
                 (disk s))
          ∧ extraction_timestamp m = isoformat (now E (ticks s + k))
          ∧ record_count m = len df ∧ meta_columns m = columns df)
  ∧ dirs s' = dirs s ++ [od]
  ∧ stdout s' = stdout s ++ [ "✓ Saved raw data to: " +:+ path;
                              "✓ Saved metadata to: " +:+ metadata_file ]
  ∧ requests s' = requests s ∧ self s' = self s ∧ sleeps s' = sleeps s
  ∧ ticks s' = S (ticks s + k).
Proof.
  intros H k metadata_file. unfold save_raw_data in H.
  apply bind_inv in H as (u0 & s1 & Hmk & H).
  apply bind_inv in H as (fname & s2 & Hfn & H).
  apply bind_inv in H as (u1 & s3 & Hcsv & H).
  apply bind_inv in H as (t & s4 & Hnow & H).
  apply bind_inv in H as (lo & s5 & Hlo & H).
  apply bind_inv in H as (hi & s6 & Hhi & H).
  apply bind_inv in H as (u2 & s7 & Hw & H).
  apply bind_inv in H as (u3 & s8 & Hp1 & H).
  apply bind_inv in H as (u4 & s9 & Hp2 & H).
  injection H as <- <-.
  unfold makedirs in Hmk. destruct (makedirs_ok E od); [|done]. injection Hmk as _ <-.
  rewrite save_raw_data_name in Hfn. injection Hfn as <- <-.
  unfold to_csv, write_file in Hcsv. destruct (open_ok E _); [|done]. injection Hcsv as _ <-.
  injection Hnow as <- <-.
  match type of Hlo with ?m E ?s0 = _ =>
    pose proof (date_bound_state false df E s0) as Hst end.
  rewrite Hlo in Hst. cbn [snd] in Hst. subst s5.
  match type of Hhi with ?m E ?s0 = _ =>
    pose proof (date_bound_state true df E s0) as Hst end.
  rewrite Hhi in Hst. cbn [snd] in Hst. subst s6.
  unfold write_file in Hw. destruct (open_ok E _); [|done]. injection Hw as _ <-.
  injection Hp1 as _ <-. injection Hp2 as _ <-.
  subst k. destruct filename as [f|];
    cbn [table_name datetime_now snd self requests stdout disk dirs sleeps ticks];
    rewrite <- ?app_assoc, ?Nat.add_0_r, ?Nat.add_1_r;
    (split_and!; try done; eexists; split; [done|];
     cbn [extraction_timestamp record_count meta_columns];
     by rewrite ?Nat.add_0_r, ?Nat.add_1_r).
Qed.

(** X19. What a successful [save_raw_data] has done, and nothing else. The
    path returned is [os.path.join(output_dir, name)], the name being the
    caller's or [syracuse_311_raw_<now>.csv]. The disk is the old one with
    the table under that path and then the metadata under the path with
    every [.csv] replaced; [output_dir] was created; the two lines naming
    the files were printed. No request was sent and the client is as it
    was. The clock was read once for a given name and twice for a default
    one: the name is of the first reading, the [extraction_timestamp] of
    the last. *)
Theorem save_raw_data_footprint E s df filename od path s' :
  save_raw_data df filename od E s = (Ok path, s') →
  let k := match filename with Some _ => 0%nat | None => 1%nat end in
  let metadata_file := replace path ".csv" "_metadata.json" in
  path = path_join od (table_name filename (now E (ticks s)))
  ∧ (∃ m, disk s'
          = <[metadata_file := Json m]>
              (<[path := Csv (columns df) ((λ r, (λ c, cell c r) <$> columns df) <$> rows df)]>
                 (disk s))
          ∧ extraction_timestamp m = isoformat (now E (ticks s + k)))
  ∧ dirs s' = dirs s ++ [od]
  ∧ stdout s' = stdout s ++ [ "✓ Saved raw data to: " +:+ path;
                              "✓ Saved metadata to: " +:+ metadata_file ]
  ∧ requests s' = requests s ∧ self s' = self s ∧ sleeps s' = sleeps s
  ∧ ticks s' = S (ticks s + k).
Proof.
  intros H k metadata_file.
  destruct (save_raw_data_Ok E s df filename od path s' H)
    as (Hpath & (m & Hdisk & Hts & _) & Hrest).
  split; [done|]. split; [|done]. by exists m.
Qed.

Lemma save_raw_data_footprint_witness :
  ∃ path s',
    save_raw_data sample_frame None "data/raw" (mock []) (init 30) = (Ok path, s')
    ∧ path = "data/raw/syracuse_311_raw_20240305_102030.csv"
    ∧ ticks s' = 2%nat
    ∧ requests s' = [].
Proof.
  destruct (save_raw_data sample_frame None "data/raw" (mock []) (init 30))
    as [out s'] eqn:Hrun.
  assert (∃ path, out = Ok path) as (path & ->).
  { vm_compute in Hrun. injection Hrun as <- _. eexists. reflexivity. }
  destruct (save_raw_data_footprint _ _ _ _ _ _ _ Hrun)
    as (Hpath & _ & _ & _ & Hreq & _ & _ & Hticks).
  exists path, s'. split; [reflexivity|]. split; [|split].
  - rewrite Hpath. vm_compute. reflexivity.
  - rewrite Hticks. reflexivity.
  - rewrite Hreq. reflexivity.
Defined.

(** *** Where the metadata goes *)

Lemma str_app_inv_head s t1 t2 : s +:+ t1 = s +:+ t2 → t1 = t2.
Proof.
  induction s as [|c s IH]; [done|]. rewrite !str_app_cons. intros [= H]. by apply IH.
Qed.

(** [.csv] does not begin in a string and end in a [.csv] that follows
    it. *)
Lemma prefix_csv_app s :
  prefix_of ".csv" (s +:+ ".csv") = true → s = "" ∨ prefix_of ".csv" s = true.
Proof.
  intros [post H]%prefix_of_spec.
  destruct s as [|a [|b [|c [|d s]]]]; [by left|exfalso..|right];
    cbv [String.append] in H; by simplify_eq.
Qed.

Lemma contains_cons old c s :
  contains old (String c s) = false →
  prefix_of old (String c s) = false ∧ contains old s = false.
Proof. cbn [contains]. by intros [? ?]%orb_false_iff. Qed.

(** Where [.csv] does not occur before the ending, the replacement swaps
    the ending. *)
Lemma replace_csv_swap base :
  contains ".csv" base = false →
  replace (base +:+ ".csv") ".csv" "_metadata.json" = base +:+ "_metadata.json".
Proof.
  unfold replace. induction base as [|c base IH]; intros Hno; [done|].
  apply contains_cons in Hno as [Hpre Hno].
  rewrite !str_app_cons. cbn [replace_from].
  destruct (prefix_of ".csv" (String c (base +:+ ".csv"))) eqn:Hp.
  - rewrite <- str_app_cons in Hp. apply prefix_csv_app in Hp as [?|Hp]; [done|congruence].
  - f_equal. by apply IH.
Qed.

(** Where [.csv] does not occur, the replacement changes nothing. *)
Lemma replace_csv_absent s new :
  contains ".csv" s = false → replace s ".csv" new = s.
Proof.
  unfold replace. induction s as [|c s IH]; intros Hno; [done|].
  apply contains_cons in Hno as [Hpre Hno].
  cbn [replace_from]. rewrite Hpre. f_equal. by apply IH.
Qed.

(** X20. Where the path of the table is [base.csv] and [.csv] does not
    occur in [base], the metadata is in [base_metadata.json], beside the
    table: after the call both files are on disk and every other file is as
    it was. *)
Theorem save_raw_data_sidecar_beside_table E s df filename od base s' :
  save_raw_data df filename od E s = (Ok (base +:+ ".csv"), s') →
  contains ".csv" base = false →
  disk s' !! (base +:+ ".csv")
  = Some (Csv (columns df) ((λ r, (λ c, cell c r) <$> columns df) <$> rows df))
  ∧ (∃ m, disk s' !! (base +:+ "_metadata.json") = Some (Json m)
          ∧ record_count m = len df ∧ meta_columns m = columns df)
  ∧ ∀ p, p ≠ base +:+ ".csv" → p ≠ base +:+ "_metadata.json" →
         disk s' !! p = disk s !! p.
Proof.
  intros Hrun Hno.
  apply save_raw_data_Ok in Hrun as (_ & (m & Hdisk & _ & Hcount & Hcols) & _).
  rewrite replace_csv_swap in Hdisk by done.
  assert (base +:+ "_metadata.json" ≠ base +:+ ".csv") as Hne.
  { intros ?%str_app_inv_head. done. }
  split_and!.
  - by rewrite Hdisk, lookup_insert_ne, lookup_insert_eq.
  - exists m. by rewrite Hdisk, lookup_insert_eq.
  - intros p Hp1 Hp2. by rewrite Hdisk, !lookup_insert_ne.
Qed.

Lemma save_raw_data_sidecar_beside_table_witness :
  ∃ m,
    disk (save_raw_data sample_frame (Some "sample_raw_data.csv") "data/raw" (mock [])
            (init 30)).2 !! "data/raw/sample_raw_data_metadata.json" = Some (Json m)
    ∧ record_count m = 3.
Proof.
  destruct (save_raw_data sample_frame (Some "sample_raw_data.csv") "data/raw" (mock [])
              (init 30)) as [out s'] eqn:Hrun.
  assert (out = Ok ("data/raw/sample_raw_data" +:+ ".csv")) as ->
    by (vm_compute in Hrun; injection Hrun as <- _; reflexivity).
  destruct (save_raw_data_sidecar_beside_table _ _ _ _ _ _ _ Hrun)
    as (_ & (m & Hm & Hcount & _) & _); [reflexivity|].
  exists m. split; [exact Hm|]. rewrite Hcount. reflexivity.
Defined.

(** X21. Where [.csv] does not occur in the path of the table, the path of
    the metadata is that same path: the metadata is written over the table
    that was just saved, the call succeeds, and no table is left. *)
Theorem save_raw_data_no_csv_in_path E s df filename od path s' :
  save_raw_data df filename od E s = (Ok path, s') →
  contains ".csv" path = false →
  (∃ m, disk s' !! path = Some (Json m) ∧ record_count m = len df)
  ∧ (∀ p, p ≠ path → disk s' !! p = disk s !! p)
  ∧ last (stdout s') = Some ("✓ Saved metadata to: " +:+ path).
Proof.
  intros Hrun Hno.
  apply save_raw_data_Ok in Hrun as (_ & (m & Hdisk & _ & Hcount & _) & _ & Hout & _).
  rewrite replace_csv_absent in Hdisk, Hout by done.
  split_and!.
  - exists m. by rewrite Hdisk, lookup_insert_eq.
  - intros p Hp. by rewrite Hdisk, !lookup_insert_ne.
  - rewrite Hout.
    change [?a; ?b] with ([a] ++ [b]). by rewrite app_assoc, last_snoc.
Qed.

Lemma save_raw_data_no_csv_in_path_witness :
  ∃ m,
    disk (save_raw_data sample_frame (Some "export.txt") "data/raw" (mock [])
            (init 30)).2 !! "data/raw/export.txt" = Some (Json m)
    ∧ record_count m = 3.
Proof.
  destruct (save_raw_data sample_frame (Some "export.txt") "data/raw" (mock []) (init 30))
    as [out s'] eqn:Hrun.
  assert (out = Ok "data/raw/export.txt") as ->
    by (vm_compute in Hrun; injection Hrun as <- _; reflexivity).
  destruct (save_raw_data_no_csv_in_path _ _ _ _ _ _ _ Hrun)
    as ((m & Hm & Hcount) & _); [reflexivity|].
  exists m. split; [exact Hm|]. rewrite Hcount. reflexivity.
Defined.

(** X22. A call that raises prints nothing and sends nothing. Either the
    directory could not be created and nothing changed; or the table could
    not be opened and the disk is as it was; or the failure came later (the
    reduction of the date column, or opening the metadata file), and then
    the table is on disk without its metadata. *)
Theorem save_raw_data_failure E s df filename od e s' :
  save_raw_data df filename od E s = (Raise e, s') →
  let path := path_join od (table_name filename (now E (ticks s))) in
  stdout s' = stdout s ∧ requests s' = requests s
  ∧ ((e = OSError od ∧ makedirs_ok E od = false ∧ s' = s)
     ∨ (e = OSError path ∧ open_ok E path = false ∧ disk s' = disk s)
     ∨ (open_ok E path = true
        ∧ disk s'
          = <[path := Csv (columns df) ((λ r, (λ c, cell c r) <$> columns df) <$> rows df)]>
              (disk s))).
Proof.
  intros H path. unfold save_raw_data in H.
  apply bind_Raise_inv in H as [H|(u0 & s1 & Hmk & H)].
  { unfold makedirs in H. destruct (makedirs_ok E od) eqn:Hok; [done|].
    injection H as <- <-. split_and!; try done. by left. }
  unfold makedirs in Hmk. destruct (makedirs_ok E od); [|done]. injection Hmk as _ <-.
  apply bind_Raise_inv in H as [H|(fname & s2 & Hfn & H)].
  { by rewrite save_raw_data_name in H. }
  rewrite save_raw_data_name in Hfn. injection Hfn as <- <-.
  cbn [ticks] in H. fold path in H.
  apply bind_Raise_inv in H as [H|(u1 & s3 & Hcsv & H)].
  { unfold to_csv, write_file in H. destruct (open_ok E path) eqn:Hok; [done|].
    injection H as <- <-. destruct filename; split_and!; try done; right; by left. }
  unfold to_csv, write_file in Hcsv. destruct (open_ok E path) eqn:Hok; [|done].
  injection Hcsv as _ <-.
  match goal with
  | |- ?G =>
      assert (stdout s' = stdout s → requests s' = requests s →
              disk s' = <[path := Csv (columns df)
                                    ((λ r, (λ c, cell c r) <$> columns df) <$> rows df)]>
                          (disk s) → G) as Hlate
  end.
  { intros ? ? ?. split_and!; try done. right. by right. }
  apply bind_Raise_inv in H as [H|(t & s4 & Hnow & H)]; [done|].
  injection Hnow as _ <-.
  apply bind_Raise_inv in H as [H|(lo & s5 & Hlo & H)].
  { match type of H with ?m E ?s0 = _ =>
      pose proof (date_bound_state false df E s0) as Hst end.
    rewrite H in Hst. cbn [snd] in Hst. subst s'.
    apply Hlate; by destruct filename. }
  match type of Hlo with ?m E ?s0 = _ =>
    pose proof (date_bound_state false df E s0) as Hst end.
  rewrite Hlo in Hst. cbn [snd] in Hst. subst s5.
  apply bind_Raise_inv in H as [H|(hi & s6 & Hhi & H)].
  { match type of H with ?m E ?s0 = _ =>
      pose proof (date_bound_state true df E s0) as Hst end.
    rewrite H in Hst. cbn [snd] in Hst. subst s'.
    apply Hlate; by destruct filename. }
  match type of Hhi with ?m E ?s0 = _ =>
    pose proof (date_bound_state true df E s0) as Hst end.
  rewrite Hhi in Hst. cbn [snd] in Hst. subst s6.
  apply bind_Raise_inv in H as [H|(u2 & s7 & Hw & H)].
  { unfold write_file in H. destruct (open_ok E (replace _ _ _)); [done|].
    injection H as _ <-. apply Hlate; by destruct filename. }
  apply bind_Raise_inv in H as [H|(u3 & s8 & Hp1 & H)]; [done|].
  apply bind_Raise_inv in H as [H|(u4 & s9 & Hp2 & H)]; [done|].
  done.
Qed.

Lemma save_raw_data_failure_witness :
  ∃ e s',
    save_raw_data sample_frame (Some "sample_raw_data.csv") "data/raw" no_json_disk (init 30)
    = (Raise e, s')
    ∧ stdout s' = []
    ∧ ∃ f, map_to_list (disk s') = [("data/raw/sample_raw_data.csv", f)].
Proof.
  destruct (save_raw_data sample_frame (Some "sample_raw_data.csv") "data/raw"
              no_json_disk (init 30)) as [out s'] eqn:Hrun.
  assert (∃ e, out = Raise e) as (e & ->).
  { vm_compute in Hrun. injection Hrun as <- _. eexists. reflexivity. }
  destruct (save_raw_data_failure _ _ _ _ _ _ _ Hrun) as (Hout & _ & Hcases).
  exists e, s'. split; [reflexivity|]. split; [exact Hout|].
  destruct Hcases as [(_ & Hmk & _)|[(_ & Hopen & _)|(_ & Hdisk)]].
  - discriminate Hmk.
  - vm_compute in Hopen. discriminate Hopen.
  - rewrite Hdisk. eexists. vm_compute. reflexivity.
Defined.
